(** * The bridged-token-deployer task of cow-token, embedded in Rocq

    Source: [src/tasks/deployment-of-bridged-token-deployer.ts].

    The task [generateDeployment] is an asynchronous procedure: it talks to a
    network provider, reads two files, computes Merkle proofs and contract
    addresses, deploys one contract and finally rewrites an output folder.
    It is embedded as a computation in a small state-and-exception monad
    over a [World] made of the file store and the chronological list of
    observable events.  The functions the task imports from other modules
    are the fields of the class [Collaborators]; every awaited call, those
    to the disk included, may reject. *)

From Stdlib Require Import String Ascii ZArith NArith List Bool Lia.
From stdpp Require Import base option gmap strings list fin_maps pretty.

Local Open Scope string_scope.
Local Open Scope list_scope.

(** ** JavaScript strings *)

Module Js.

(** [String.prototype.toLowerCase] on the ASCII range, where the
    hexadecimal addresses compared by the task live. *)
Definition lowerChar (c : ascii) : ascii :=
  let n := N_of_ascii c in
  if ((65 <=? n) && (n <=? 90))%N then ascii_of_N (n + 32) else c.

Fixpoint toLowerCase (s : string) : string :=
  match s with
  | EmptyString => EmptyString
  | String c r => String (lowerChar c) (toLowerCase r)
  end.

(** [String.prototype.includes]. *)
Fixpoint includes (needle hay : string) : bool :=
  String.prefix needle hay ||
  match hay with
  | EmptyString => false
  | String _ r => includes needle r
  end.

(** What a run can throw.  [Error] is [throw new Error(message)];
    [TypeError] is the engine's error for reading [property] off
    [undefined]; [Rejected] is a rejection coming out of an awaited
    collaborator. *)
Inductive Exception : Type :=
| Error (message : string)
| TypeError (property : string)
| Rejected (reason : string).

(** The text carried by an exception (V8 wording for [TypeError]). *)
Definition message (e : Exception) : string :=
  match e with
  | Error m => m
  | TypeError p =>
      "Cannot read properties of undefined (reading '" +:+ p +:+ "')"
  | Rejected r => r
  end.

Inductive Result (A : Type) : Type :=
| Ok (a : A)
| Throw (e : Exception).
Arguments Ok {A} a.
Arguments Throw {A} e.

End Js.
Import Js.

(** ** [ethers] constants and utilities *)

Module Ethers.

(** [constants.AddressZero]. *)
Definition AddressZero : string :=
  "0x0000000000000000000000000000000000000000".

Definition digit (c : ascii) : option Z :=
  let n := N_of_ascii c in
  if ((48 <=? n) && (n <=? 57))%N then Some (Z.of_N (n - 48)) else None.

Fixpoint digits (acc : Z) (s : string) : option Z :=
  match s with
  | EmptyString => Some acc
  | String c r =>
      match digit c with
      | Some d => digits (10 * acc + d)%Z r
      | None => None
      end
  end.

(** Cuts a decimal literal at its first dot. *)
Fixpoint cutAtDot (s : string) : string * option string :=
  match s with
  | EmptyString => (EmptyString, None)
  | String c r =>
      if Ascii.eqb c "."%char then (EmptyString, Some r)
      else let '(w, f) := cutAtDot r in (String c w, f)
  end.

(** [utils.parseUnits(value, decimals)] for an unsigned decimal literal:
    the literal scaled by [10^decimals]; [None] stands for the thrown
    error (not a decimal literal, or more fractional digits than
    [decimals]). *)
Definition parseUnits (value : string) (decimals : nat) : option Z :=
  let '(whole, frac) := cutAtDot value in
  let frac := default EmptyString frac in
  if (String.length whole =? 0)%nat && (String.length frac =? 0)%nat then None
  else if (decimals <? String.length frac)%nat then None
  else
    match digits 0 whole, digits 0 frac with
    | Some w, Some f =>
        Some (w * 10 ^ Z.of_nat decimals
              + f * 10 ^ Z.of_nat (decimals - String.length frac))%Z
    | _, _ => None
    end.

End Ethers.

(** ** Data model *)

(** Modelled from the spec: the [Claim] record of the data model (its
    declaration lives in [../ts], outside this file): beneficiary identity,
    amount, and the index of the claim type in its closed enumeration. *)
Record Claim : Type := {
  account : string;
  claimableAmount : N;
  claimType : nat;
}.

(** Modelled from the spec: one level of an inclusion proof, the sibling
    hash and the side on which it is hashed. *)
Record ProofStep : Type := {
  sibling : string;
  siblingOnLeft : bool;
}.

Record ProvenClaim : Type := {
  claim : Claim;
  proof : list ProofStep;
}.

(** The result of [computeProofs]: [{ merkleRoot, claims }]. *)
Record ProvenClaims : Type := {
  merkleRoot : string;
  claims : list ProvenClaim;
}.

(** A JSON object whose members this task does not read: member name to
    serialized value. *)
Abbreviation Members := (gmap string string).

(** [settings.cowToken] and [settings.cowDao]: the optional
    [expectedAddress] and the members only [generateProposal] reads. *)
Record ContractSettings : Type := {
  expectedAddress : option string;
  contractMembers : Members;
}.

Record VirtualTokenCreationSettings : Type := {
  gnoPrice : option string;
  virtualTokenMembers : Members;
}.

Record BridgeParameter : Type := {
  bridge_multiTokenMediatorGnosisChain : option string;
  bridgeMembers : Members;
}.

(** The parsed settings document.  TypeScript's [Settings] type is erased
    at run time, so every member the task reads may be [undefined]
    ([None]); the top-level [multiTokenMediatorGnosisChain] is the member
    that [dummySettings] overrides. *)
Record Settings : Type := {
  cowToken : option ContractSettings;
  cowDao : option ContractSettings;
  virtualCowToken : option VirtualTokenCreationSettings;
  bridge : option BridgeParameter;
  multiTokenMediatorGnosisChain : option string;
  settingsMembers : Members;
}.

(** [addresses: { cowToken, cowDao }] of a generated proposal. *)
Record Addresses : Type := {
  addr_cowToken : string;
  addr_cowDao : string;
}.

(** [DeploymentHelperDeployParams].  Members copied from the settings or
    looked up in a table are [undefined] ([None]) when the source is. *)
Record DeploymentHelperDeployParams : Type := {
  foreignToken : string;
  param_multiTokenMediatorGnosisChain : option string;
  param_merkleRoot : string;
  communityFundsTarget : string;
  gnoToken : option string;
  param_gnoPrice : option string;
  nativeTokenPrice : Z;
  wrappedNativeToken : option string;
}.

(** The task arguments [{ claims, settings }]: two paths. *)
Record Args : Type := {
  arg_claims : string;
  arg_settings : string;
}.

(** ** The world a run acts on *)

(** What a run does that can be observed from outside, in program order. *)
Inductive Event : Type :=
| GetSigners
| GetNetwork
| ReadFile (path : string)
| ParseCsvFile (path : string)
| Log (text : string)
| LogParams (text : string) (params : DeploymentHelperDeployParams)
| Warn (text : string)
| GenerateProposal (settings : Settings) (safeMainnet safeGnosis : Members)
| GetContractFactory (name : string)
| Deploy (params : DeploymentHelperDeployParams)
| Rm (path : string)
| RemoveSplitClaimFiles (folder : string)
| Mkdir (path : string)
| WriteFile (path content : string)
| SplitClaimsAndSaveToFolder (claims : list ProvenClaim) (folder : string).

(** Events that change the file store. *)
Definition mutates (e : Event) : bool :=
  match e with
  | Rm _ | RemoveSplitClaimFiles _ | Mkdir _ | WriteFile _ _
  | SplitClaimsAndSaveToFolder _ _ => true
  | _ => false
  end.

(** Events that read a file. *)
Definition readsFile (e : Event) : bool :=
  match e with
  | ReadFile _ | ParseCsvFile _ => true
  | _ => false
  end.

(** The file store maps a path to the content of the file there.
    Directories, permissions and free space are not part of it: what they
    make of a call is the answer of [fsRejects]. *)
Record World : Type := {
  files : gmap string string;
  trace : list Event;
}.

(** ** Effects: state passing with exceptions *)

Record M (A : Type) : Type := Run { run : World -> Result A * World }.
Arguments Run {A} run.
Arguments run {A} m w.

#[global] Instance M_ret : MRet M := fun A a => Run (fun w => (Ok a, w)).

#[global] Instance M_bind : MBind M := fun A B f m => Run (fun w =>
  match run m w with
  | (Ok a, w') => run (f a) w'
  | (Throw e, w') => (Throw e, w')
  end).

#[global] Instance Result_ret : MRet Result := fun A a => Ok a.

#[global] Instance Result_bind : MBind Result := fun A B f r =>
  match r with
  | Ok a => f a
  | Throw e => Throw e
  end.

Definition throw {A} (e : Exception) : M A := Run (fun w => (Throw e, w)).

Definition emit (e : Event) : M unit := Run (fun w =>
  (Ok tt, {| files := files w; trace := trace w ++ [e] |})).

(** [await] of a call that may change the file store and may reject; a
    rejected call leaves the store it returns. *)
Definition awaitStore
    (call : gmap string string -> Result unit * gmap string string) : M unit :=
  Run (fun w => let '(r, fs) := call (files w) in
                (r, {| files := fs; trace := trace w |})).

(** [await] of a collaborator whose outcome may depend on the file store. *)
Definition await {A} (e : Event) (r : gmap string string -> Result A) : M A :=
  emit e ;; Run (fun w => (r (files w), w)).

(** [o.property]: a [TypeError] when [o] is [undefined]. *)
Definition member {A} (property : string) (o : option A) : Result A :=
  match o with
  | Some a => Ok a
  | None => Throw (TypeError property)
  end.

Definition liftR {A} (r : Result A) : M A := Run (fun w => (r, w)).

Module Console.
Definition log (text : string) : M unit := emit (Log text).
Definition warn (text : string) : M unit := emit (Warn text).
End Console.

(** Node's [fs.promises], as far as the task uses it: paths and reading. *)
Module Fs.

Definition beneath (dir path : string) : bool :=
  String.prefix (dir +:+ "/") path.

Definition removed (target path : string) : bool :=
  String.eqb target path || beneath target path.

(** What [rm(path, { recursive: true, force: true })] does to the store
    when it is carried out: the file at [target], or everything beneath
    it, goes; nothing there is fine. *)
Definition remove (target : string) (fs : gmap string string)
  : gmap string string :=
  filter (fun kv => removed target kv.1 = false) fs.

Definition readFile (path : string) : M string :=
  await (ReadFile path) (fun fs =>
    match fs !! path with
    | Some content => Ok content
    | None =>
        Throw (Rejected ("ENOENT: no such file or directory, open '"
                         +:+ path +:+ "'"))
    end).

End Fs.

(** The calls to [fs.promises] that change the disk. *)
Inductive FsCall : Type :=
| RmCall (path : string)
| MkdirCall (path : string)
| WriteFileCall (path data : string).

(** ** Collaborators

    What the task imports: the provider and contract factory of the Hardhat
    runtime, [JSON], and the functions and tables of [../ts], [../ts/split],
    [../ts/lib/...] and [./ts/safe], whose code is not part of this file. *)
Class Collaborators : Type := {
  (** addresses of [hre.ethers.getSigners()] *)
  getSigners : Result (list string);
  (** [chainId] of [hre.ethers.provider.getNetwork()] *)
  getNetwork : Result N;
  (** [JSON.parse] of the settings document *)
  JSON_parse : string -> Result Settings;
  (** [JSON.stringify(address, undefined, 2)] and
      [JSON.stringify(claimsWithProof)] *)
  JSON_stringify_address : string -> string;
  JSON_stringify_claims : list ProvenClaim -> string;
  parseCsvFile : string -> gmap string string -> Result (list Claim);
  computeProofs : list Claim -> ProvenClaims;
  dummyVirtualTokenCreationSettings : VirtualTokenCreationSettings;
  defaultSafeDeploymentAddresses : string -> Result Members;
  generateProposal : Settings -> Members -> Members -> Result Addresses;
  defaultTokens_gno : gmap string string;
  defaultTokens_weth : gmap string string;
  (** [getContractFactory], [constructorInput] and
      [BridgedTokenDeployer.deploy]: the address of the deployed contract *)
  deployBridgedTokenDeployer : DeploymentHelperDeployParams -> Result string;
  (** what the disk does with a call that changes it: [None] when the call
      is carried out; otherwise the rejection (ENOTDIR, EISDIR, EACCES,
      ENOSPC, ...) and the store the rejected call leaves behind *)
  fsRejects :
    FsCall -> gmap string string -> option (Exception * gmap string string);
  (** the two awaited helpers of [../ts/split]: their outcome and the store
      they leave *)
  removeSplitClaimFiles :
    string -> gmap string string -> Result unit * gmap string string;
  splitClaimsAndSaveToFolder :
    list ProvenClaim -> string -> gmap string string
    -> Result unit * gmap string string;
}.

(** The calls to [fs.promises] that change the disk.  Directories are not
    part of the store, so a [mkdir] that is carried out leaves it as it
    is. *)
Module FsPromises.
Section Disk.
Context `{Collaborators}.

Definition attempt (call : FsCall)
    (effect : gmap string string -> gmap string string) : M unit :=
  awaitStore (fun fs =>
    match fsRejects call fs with
    | Some (e, remains) => (Throw e, remains)
    | None => (Ok tt, effect fs)
    end).

(** [rm(path, { recursive: true, force: true })]. *)
Definition rm (path : string) : M unit :=
  emit (Rm path) ;; attempt (RmCall path) (Fs.remove path).

(** [mkdir(path, { recursive: true })]. *)
Definition mkdir (path : string) : M unit :=
  emit (Mkdir path) ;; attempt (MkdirCall path) id.

(** [writeFile(path, data)]: the default flag replaces the whole file. *)
Definition writeFile (path data : string) : M unit :=
  emit (WriteFile path data) ;;
  attempt (WriteFileCall path data) (insert path data).

End Disk.
End FsPromises.

(** ** The task *)

Section Task.
Context `{Collaborators}.

Definition OUTPUT_FOLDER_GC : string := "./output/deployment-gc".

(** Lines 65-69: [{ ...settings, virtualCowToken: ..., multiTokenMediatorGnosisChain: ... }]. *)
Definition dummySettings (settings : Settings) : Settings :=
  {| cowToken := cowToken settings;
     cowDao := cowDao settings;
     virtualCowToken := Some dummyVirtualTokenCreationSettings;
     bridge := bridge settings;
     multiTokenMediatorGnosisChain := Some Ethers.AddressZero;
     settingsMembers := settingsMembers settings |}.

(** [{ ...defaultSafeDeploymentAddresses(chainId), forwarder: constants.AddressZero }]. *)
Definition safeWithForwarder (chainId : string) : Result Members :=
  safe ← defaultSafeDeploymentAddresses chainId;
  mret (<["forwarder" := Ethers.AddressZero]> safe).

(** Lines 94-104. *)
Definition verifyCowToken (settings : Settings) (addresses : Addresses)
  : M unit :=
  contract ← liftR (member "expectedAddress" (cowToken settings));
  match expectedAddress contract with
  | Some expected =>
      if negb (String.eqb (toLowerCase expected)
                          (toLowerCase (addr_cowToken addresses)))
      then throw (Error ("Expected cowToken address " +:+ expected
                         +:+ " does not coincide with calculated address "
                         +:+ addr_cowToken addresses))
      else mret tt
  | None => Console.warn "settings.cowToken.expectedAddress was not defined"
  end.

(** Lines 106-116. *)
Definition verifyCowDao (settings : Settings) (addresses : Addresses)
  : M unit :=
  contract ← liftR (member "expectedAddress" (cowDao settings));
  match expectedAddress contract with
  | Some expected =>
      if negb (String.eqb (toLowerCase expected)
                          (toLowerCase (addr_cowDao addresses)))
      then throw (Error "Expected cowDao address does not coincide with calculated address")
      else mret tt
  | None => Console.warn "settings.cowDao.expectedAddress was not defined"
  end.

(** Lines 118-128: the object literal, its members evaluated in order. *)
Definition deploymentHelperParameters (settings : Settings)
    (addresses : Addresses) (root : string) (chainId : string)
  : Result DeploymentHelperDeployParams :=
  b ← member "multiTokenMediatorGnosisChain" (bridge settings);
  v ← member "gnoPrice" (virtualCowToken settings);
  match Ethers.parseUnits "0.15" 18 with
  | Some price =>
      Ok {| foreignToken := addr_cowToken addresses;
            param_multiTokenMediatorGnosisChain :=
              bridge_multiTokenMediatorGnosisChain b;
            param_merkleRoot := root;
            communityFundsTarget := addr_cowDao addresses;
            gnoToken := defaultTokens_gno !! chainId;
            param_gnoPrice := gnoPrice v;
            nativeTokenPrice := price;
            wrappedNativeToken := defaultTokens_weth !! chainId |}
  | None => Throw (Error "invalid decimal value")
  end.

(** Lines 145-166: seven awaited calls, each of which may reject. *)
Definition writeArtifacts (address : string)
    (claimsWithProof : list ProvenClaim) : M unit :=
  Console.log "Clearing old files..." ;;
  FsPromises.rm (OUTPUT_FOLDER_GC +:+ "/claims.json") ;;
  FsPromises.rm (OUTPUT_FOLDER_GC +:+ "/params.json") ;;
  emit (RemoveSplitClaimFiles OUTPUT_FOLDER_GC) ;;
  awaitStore (removeSplitClaimFiles OUTPUT_FOLDER_GC) ;;
  Console.log "Saving generated data to file..." ;;
  FsPromises.mkdir OUTPUT_FOLDER_GC ;;
  FsPromises.writeFile (OUTPUT_FOLDER_GC +:+ "/addresses.json")
                       (JSON_stringify_address address) ;;
  FsPromises.writeFile (OUTPUT_FOLDER_GC +:+ "/claims.json")
                       (JSON_stringify_claims claimsWithProof) ;;
  emit (SplitClaimsAndSaveToFolder claimsWithProof OUTPUT_FOLDER_GC) ;;
  awaitStore (splitClaimsAndSaveToFolder claimsWithProof OUTPUT_FOLDER_GC).

(** Lines 40-167. *)
Definition generateDeployment (args : Args) : M unit :=
  let claimCsv := arg_claims args in
  let settingsJson := arg_settings args in
  signers ← await GetSigners (fun _ => getSigners);
  let deployer := head signers in
  network ← await GetNetwork (fun _ => getNetwork);
  let chainId := pretty network in
  if negb (String.eqb chainId "100")
  then throw (Error ("This script must be run on gnosis chain. Found chainId "
                     +:+ chainId))
  else
    text ← Fs.readFile settingsJson;
    settings ← liftR (JSON_parse text);
    deployerAddress ← liftR (member "address" deployer);
    Console.log ("Using deployer " +:+ deployerAddress) ;;
    Console.log "Reading user claims for gnosis chain from file..." ;;
    parsed ← await (ParseCsvFile claimCsv) (parseCsvFile claimCsv);
    Console.log "Generating Merkle proofs..." ;;
    let proven := computeProofs parsed in
    let claimsWithProof := claims proven in
    let dummy := dummySettings settings in
    safeMainnet ← liftR (safeWithForwarder chainId);
    safeGnosis ← liftR (safeWithForwarder "100");
    addresses ← await (GenerateProposal dummy safeMainnet safeGnosis)
                      (fun _ => generateProposal dummy safeMainnet safeGnosis);
    verifyCowToken settings addresses ;;
    verifyCowDao settings addresses ;;
    params ← liftR (deploymentHelperParameters settings addresses
                      (merkleRoot proven) chainId);
    emit (LogParams "The following deployment parameters will be used"
                    params) ;;
    emit (GetContractFactory "BridgedTokenDeployer") ;;
    address ← await (Deploy params)
                    (fun _ => deployBridgedTokenDeployer params);
    writeArtifacts address claimsWithProof.

End Task.

(** ** The commitment builder *)

Module Merkle.

(** What a level with an odd number of nodes does with its last node. *)
Inductive OddPolicy : Type := Promote | Duplicate.

Section Tree.
(** The hash of a claim's canonical encoding, and the hash of the
    concatenation of a left and a right node. *)
Variable leafHash : Claim -> string.
Variable hashPair : string -> string -> string.
Variable policy : OddPolicy.
(** The root reported for an empty claim list, which the design leaves
    open. *)
Variable emptyRoot : string.

(** Modelled from the spec: one level up, pairing adjacent nodes left to
    right ([computeProofs] lives in [../ts], outside this file). *)
Fixpoint pairUp (level : list string) : list string :=
  match level with
  | l :: r :: rest => hashPair l r :: pairUp rest
  | [l] => [match policy with Promote => l | Duplicate => hashPair l l end]
  | [] => []
  end.

(** Modelled from the spec: levels are built until one hash remains;
    [fuel] bounds the number of levels. *)
Fixpoint reduce (fuel : nat) (level : list string) : list string :=
  match level, fuel with
  | _ :: _ :: _, S fuel' => reduce fuel' (pairUp level)
  | _, _ => level
  end.

Definition root (leaves : list string) : string :=
  match reduce (length leaves) leaves with
  | h :: _ => h
  | [] => emptyRoot
  end.

(** Modelled from the spec: the sibling retained for node [i] of a
    level. *)
Definition stepAt (level : list string) (i : nat) : list ProofStep :=
  if Nat.even i then
    match level !! S i with
    | Some s => [{| sibling := s; siblingOnLeft := false |}]
    | None =>
        match policy, level !! i with
        | Duplicate, Some x => [{| sibling := x; siblingOnLeft := false |}]
        | _, _ => []
        end
    end
  else
    match level !! (i - 1) with
    | Some s => [{| sibling := s; siblingOnLeft := true |}]
    | None => []
    end.

(** Modelled from the spec: the siblings met by leaf [i] on its way to
    the root. *)
Fixpoint path (fuel : nat) (level : list string) (i : nat)
  : list ProofStep :=
  match level, fuel with
  | _ :: _ :: _, S fuel' =>
      stepAt level i ++ path fuel' (pairUp level) (Nat.div2 i)
  | _, _ => []
  end.

(** Modelled from the spec: the commitment builder, root and one proof
    per claim in input order. *)
Definition computeProofs (input : list Claim) : ProvenClaims :=
  let leaves := map leafHash input in
  {| merkleRoot := root leaves;
     claims := imap (fun i c =>
                       {| claim := c;
                          proof := path (length leaves) leaves i |})
                    input |}.

(** Modelled from the spec: recomputing the root from a leaf hash by
    folding its proof. *)
Definition climb (node : string) (step : ProofStep) : string :=
  if siblingOnLeft step then hashPair (sibling step) node
  else hashPair node (sibling step).

Definition recompute (leaf : string) (steps : list ProofStep) : string :=
  fold_left climb steps leaf.

End Tree.

End Merkle.

(** ** The shard writer *)

Module Split.

Section Shards.
(** The bound on the items of one shard, the path of the shard with a
    given index in a folder, and the test for such paths. *)
Variable maxItems : nat.
Variable shardPath : string -> nat -> string.
Variable isShardPath : string -> string -> bool.
Variable stringify : list ProvenClaim -> string.

(** Modelled from the spec: the claim list cut into shards of at most
    [maxItems] items ([../ts/split] is outside this file). *)
Fixpoint shards (fuel : nat) (items : list ProvenClaim)
  : list (list ProvenClaim) :=
  match items, fuel with
  | [], _ | _, O => []
  | _, S fuel' => take maxItems items :: shards fuel' (drop maxItems items)
  end.

Fixpoint saveFrom (folder : string) (index : nat)
    (parts : list (list ProvenClaim)) (fs : gmap string string)
  : gmap string string :=
  match parts with
  | [] => fs
  | part :: rest =>
      saveFrom folder (S index) rest
               (<[shardPath folder index := stringify part]> fs)
  end.

(** Modelled from the spec: every prior shard file of the folder goes. *)
Definition removeSplitClaimFiles (folder : string)
    (fs : gmap string string) : gmap string string :=
  filter (fun kv => isShardPath folder kv.1 = false) fs.

(** Modelled from the spec: the shards are written as files named by
    their index. *)
Definition splitClaimsAndSaveToFolder (items : list ProvenClaim)
    (folder : string) (fs : gmap string string) : gmap string string :=
  saveFrom folder 0 (shards (length items) items) fs.

End Shards.

End Split.

(** ** A concrete set of collaborators

    Hashes are kept symbolic, shards hold two claims and live in the
    [chunks] sub-folder; the provider, the parser and the proposal
    generator answer with the given values. *)
Module Demo.

Definition leafHash (c : Claim) : string :=
  "leaf(" +:+ account c +:+ ":" +:+ pretty (claimableAmount c) +:+ ":"
  +:+ pretty (claimType c) +:+ ")".

Definition hashPair (l r : string) : string :=
  "node(" +:+ l +:+ "," +:+ r +:+ ")".

Definition shardPath (folder : string) (index : nat) : string :=
  folder +:+ "/chunks/" +:+ pretty index +:+ ".json".

Definition isShardPath (folder path : string) : bool :=
  Fs.beneath (folder +:+ "/chunks") path.

Definition showStep (s : ProofStep) : string :=
  (if siblingOnLeft s then "L:" else "R:") +:+ sibling s.

Definition showClaim (c : ProvenClaim) : string :=
  "{" +:+ leafHash (claim c) +:+ "|"
  +:+ String.concat ";" (map showStep (proof c)) +:+ "}".

Definition showClaims (l : list ProvenClaim) : string :=
  "[" +:+ String.concat "," (map showClaim l) +:+ "]".

Definition quote (s : string) : string :=
  String "034"%char (s +:+ String "034"%char EmptyString).

Definition dummyVirtualToken : VirtualTokenCreationSettings :=
  {| gnoPrice := Some "0"; virtualTokenMembers := ∅ |}.

Definition collaborators (chain : N) (settings : Result Settings)
    (input : Result (list Claim))
    (propose : Settings -> Result Addresses) : Collaborators :=
  {| getSigners := Ok ["0x00000000000000000000000000000000000000d1"];
     getNetwork := Ok chain;
     JSON_parse := fun _ => settings;
     JSON_stringify_address := quote;
     JSON_stringify_claims := showClaims;
     parseCsvFile := fun _ _ => input;
     computeProofs :=
       Merkle.computeProofs leafHash hashPair Merkle.Promote "0x";
     dummyVirtualTokenCreationSettings := dummyVirtualToken;
     defaultSafeDeploymentAddresses := fun _ => Ok ∅;
     generateProposal := fun s _ _ => propose s;
     defaultTokens_gno := {[ "100" := "0x9c58bacc331c9aa871afd802db6379a98e80cedb" ]};
     defaultTokens_weth := {[ "100" := "0xe91d153e0b41518a2ce8dd3d7944fa863463a97d" ]};
     deployBridgedTokenDeployer :=
       fun _ => Ok "0x00000000000000000000000000000000000000b7";
     fsRejects := fun _ _ => None;
     removeSplitClaimFiles := fun folder fs =>
       (Ok tt, Split.removeSplitClaimFiles isShardPath folder fs);
     splitClaimsAndSaveToFolder := fun items folder fs =>
       (Ok tt, Split.splitClaimsAndSaveToFolder 2 shardPath showClaims
                 items folder fs) |}.

Definition predictedCowToken : string :=
  "0xDEf1CA1fb7FBcDC777520aa7f396b4E015F497aB".
Definition predictedCowDao : string :=
  "0xcA771eda0c70aA7d053aB1B25004559B918FE662".

Definition predicted : Addresses :=
  {| addr_cowToken := predictedCowToken; addr_cowDao := predictedCowDao |}.

(** A settings document; the expectations are its two parameters. *)
Definition settings (expectedToken expectedDao : option string) : Settings :=
  {| cowToken := Some {| expectedAddress := expectedToken;
                         contractMembers := ∅ |};
     cowDao := Some {| expectedAddress := expectedDao;
                       contractMembers := ∅ |};
     virtualCowToken := Some {| gnoPrice := Some "375000";
                                virtualTokenMembers := ∅ |};
     bridge := Some {| bridge_multiTokenMediatorGnosisChain :=
                         Some "0xf6A78083ca3e2a662D6dd1703c939c8aCE2e268d";
                       bridgeMembers := ∅ |};
     multiTokenMediatorGnosisChain := None;
     settingsMembers := ∅ |}.

Definition alice : Claim :=
  {| account := "0xAAAA000000000000000000000000000000000001";
     claimableAmount := 100; claimType := 0 |}.
Definition bob : Claim :=
  {| account := "0xBBBB000000000000000000000000000000000002";
     claimableAmount := 7; claimType := 1 |}.
Definition carol : Claim :=
  {| account := "0xCCCC000000000000000000000000000000000003";
     claimableAmount := 12; claimType := 2 |}.

Definition args : Args :=
  {| arg_claims := "claims.csv"; arg_settings := "settings.json" |}.

(** A store left behind by an earlier, larger run. *)
Definition store : gmap string string :=
  {[ "settings.json" := "{}";
     "claims.csv" := "account,amount,type";
     "./output/deployment-gc/params.json" := "stale";
     "./output/deployment-gc/claims.json" := "stale";
     "./output/deployment-gc/chunks/0.json" := "stale";
     "./output/deployment-gc/chunks/7.json" := "stale" ]}.

Definition world : World := {| files := store; trace := [] |}.

(** Gnosis chain, the given expectations and claims, the fixed
    prediction. *)
Definition env (expectedToken expectedDao : option string)
    (input : list Claim) : Collaborators :=
  collaborators 100 (Ok (settings expectedToken expectedDao)) (Ok input)
                (fun _ => Ok predicted).

(** The same on Ethereum mainnet. *)
Definition mainnet : Collaborators :=
  collaborators 1 (Ok (settings None None)) (Ok [alice])
                (fun _ => Ok predicted).

Definition safe : Members := <["forwarder" := Ethers.AddressZero]> ∅.

Definition otherAddress : string :=
  "0x00000000000000000000000000000000000000E1".

(** A document whose [bridge] and [virtualCowToken] objects are there
    but empty. *)
Definition bare : Settings :=
  {| cowToken := Some {| expectedAddress := None; contractMembers := ∅ |};
     cowDao := Some {| expectedAddress := None; contractMembers := ∅ |};
     virtualCowToken := Some {| gnoPrice := None;
                                virtualTokenMembers := ∅ |};
     bridge := Some {| bridge_multiTokenMediatorGnosisChain := None;
                       bridgeMembers := ∅ |};
     multiTokenMediatorGnosisChain := None;
     settingsMembers := ∅ |}.

(** [settings None None] with another mediator inside [bridge]. *)
Definition rebridged : Settings :=
  {| cowToken := cowToken (settings None None);
     cowDao := cowDao (settings None None);
     virtualCowToken := virtualCowToken (settings None None);
     bridge := Some {| bridge_multiTokenMediatorGnosisChain :=
                         Some otherAddress;
                       bridgeMembers := ∅ |};
     multiTokenMediatorGnosisChain :=
       multiTokenMediatorGnosisChain (settings None None);
     settingsMembers := settingsMembers (settings None None) |}.

(** [settings None None] with another virtual token and a top-level
    mediator. *)
Definition repriced : Settings :=
  {| cowToken := cowToken (settings None None);
     cowDao := cowDao (settings None None);
     virtualCowToken := Some {| gnoPrice := Some "1";
                                virtualTokenMembers := ∅ |};
     bridge := bridge (settings None None);
     multiTokenMediatorGnosisChain := Some otherAddress;
     settingsMembers := settingsMembers (settings None None) |}.

End Demo.

(** ** Further concrete collaborators

    Gnosis chain, the claim of [Demo.alice] and the fixed prediction, with
    the signers, the settings document and the deployment as given. *)
Module Scenario.

Definition custom (signers : Result (list string))
    (settings : Result Settings)
    (deploy : DeploymentHelperDeployParams -> Result string)
    (disk : FsCall -> gmap string string
            -> option (Exception * gmap string string))
  : Collaborators :=
  {| getSigners := signers;
     getNetwork := Ok 100%N;
     JSON_parse := fun _ => settings;
     JSON_stringify_address := Demo.quote;
     JSON_stringify_claims := Demo.showClaims;
     parseCsvFile := fun _ _ => Ok [Demo.alice];
     computeProofs :=
       Merkle.computeProofs Demo.leafHash Demo.hashPair Merkle.Promote "0x";
     dummyVirtualTokenCreationSettings := Demo.dummyVirtualToken;
     defaultSafeDeploymentAddresses := fun _ => Ok ∅;
     generateProposal := fun _ _ _ => Ok Demo.predicted;
     defaultTokens_gno :=
       {[ "100" := "0x9c58bacc331c9aa871afd802db6379a98e80cedb" ]};
     defaultTokens_weth :=
       {[ "100" := "0xe91d153e0b41518a2ce8dd3d7944fa863463a97d" ]};
     deployBridgedTokenDeployer := deploy;
     fsRejects := disk;
     removeSplitClaimFiles := fun folder fs =>
       (Ok tt, Split.removeSplitClaimFiles Demo.isShardPath folder fs);
     splitClaimsAndSaveToFolder := fun items folder fs =>
       (Ok tt, Split.splitClaimsAndSaveToFolder 2 Demo.shardPath
                 Demo.showClaims items folder fs) |}.

(** A disk that carries out every call. *)
Definition healthy (_ : FsCall) (_ : gmap string string)
  : option (Exception * gmap string string) := None.

(** A disk on which [./output] is a regular file: the first [rm] is
    rejected and leaves the store as it is. *)
Definition blocked (call : FsCall) (fs : gmap string string)
  : option (Exception * gmap string string) :=
  match call with
  | RmCall _ => Some (Rejected "ENOTDIR: not a directory, rm", fs)
  | _ => None
  end.

Definition deployer : string := "0x00000000000000000000000000000000000000d1".

Definition deployed (_ : DeploymentHelperDeployParams) : Result string :=
  Ok "0x00000000000000000000000000000000000000b7".

(** The deployment transaction is rejected. *)
Definition rejected : Collaborators :=
  custom (Ok [deployer]) (Ok (Demo.settings None None))
         (fun _ => Throw (Rejected "insufficient funds for gas")) healthy.

(** The provider has no signer. *)
Definition unsigned : Collaborators :=
  custom (Ok []) (Ok (Demo.settings None None)) deployed healthy.

(** A settings document without the [cowToken] object. *)
Definition tokenless : Settings :=
  {| cowToken := None;
     cowDao := cowDao (Demo.settings None None);
     virtualCowToken := virtualCowToken (Demo.settings None None);
     bridge := bridge (Demo.settings None None);
     multiTokenMediatorGnosisChain := None;
     settingsMembers := ∅ |}.

Definition withoutToken : Collaborators :=
  custom (Ok [deployer]) (Ok tokenless) deployed healthy.

(** Both expectations written in lower case. *)
Definition lowered : Settings :=
  Demo.settings (Some (toLowerCase Demo.predictedCowToken))
                (Some (toLowerCase Demo.predictedCowDao)).

Definition expecting : Collaborators :=
  custom (Ok [deployer]) (Ok lowered) deployed healthy.

(** A settings document without the [cowDao] object. *)
Definition daoless : Settings :=
  {| cowToken := cowToken (Demo.settings None None);
     cowDao := None;
     virtualCowToken := virtualCowToken (Demo.settings None None);
     bridge := bridge (Demo.settings None None);
     multiTokenMediatorGnosisChain := None;
     settingsMembers := ∅ |}.

Definition withoutDao : Collaborators :=
  custom (Ok [deployer]) (Ok daoless) deployed healthy.

(** The running example on the blocked disk. *)
Definition stuck : Collaborators :=
  custom (Ok [deployer]) (Ok (Demo.settings None None)) deployed blocked.

End Scenario.

(** * Specification vocabulary *)

(** [w'] extends [w] without touching the file store. *)
Definition untouched (w w' : World) : Prop :=
  files w' = files w /\
  exists events, trace w' = trace w ++ events /\
                 forallb (fun e => negb (mutates e)) events = true.

(** The expectation of a contract, if any, agrees with the predicted
    address up to letter case. *)
Definition passes (contract : ContractSettings) (predicted : string) : bool :=
  match expectedAddress contract with
  | Some expected => String.eqb (toLowerCase expected) (toLowerCase predicted)
  | None => true
  end.

(** An expectation is there and differs from the predicted address up to
    letter case. *)
Definition differs (contract : option ContractSettings) (predicted : string)
  : bool :=
  match contract with
  | Some c => negb (passes c predicted)
  | None => false
  end.

(** The warning printed for a contract without expectation. *)
Definition warning (name : string) (contract : ContractSettings) : list Event :=
  match expectedAddress contract with
  | Some _ => []
  | None => [Warn ("settings." +:+ name +:+ ".expectedAddress was not defined")]
  end.

(** A warning printed on the console. *)
Definition isWarn (e : Event) : bool :=
  match e with Warn _ => true | _ => false end.

(** An event by which a run goes on after the two checks: printing the
    parameters, requesting the deployment, writing a file. *)
Definition goesOn (e : Event) : bool :=
  match e with
  | LogParams _ _ | Deploy _ | WriteFile _ _ => true
  | _ => false
  end.

Section Vocabulary.
Context `{Collaborators}.

(** What a run does before the verifier has decided. *)
Definition preludeEvents (args : Args) (deployer : string)
    (settings : Settings) (safe : Members) : list Event :=
  [ GetSigners; GetNetwork; ReadFile (arg_settings args);
    Log ("Using deployer " +:+ deployer);
    Log "Reading user claims for gnosis chain from file...";
    ParseCsvFile (arg_claims args);
    Log "Generating Merkle proofs...";
    GenerateProposal (dummySettings settings) safe safe ].

(** What a run does between the verifier and the writer. *)
Definition deployEvents (params : DeploymentHelperDeployParams) : list Event :=
  [ LogParams "The following deployment parameters will be used" params;
    GetContractFactory "BridgedTokenDeployer";
    Deploy params ].

(** What the writer does, in order, when no call is rejected. *)
Definition artifactEvents (address : string)
    (claimsWithProof : list ProvenClaim) : list Event :=
  [ Log "Clearing old files...";
    Rm (OUTPUT_FOLDER_GC +:+ "/claims.json");
    Rm (OUTPUT_FOLDER_GC +:+ "/params.json");
    RemoveSplitClaimFiles OUTPUT_FOLDER_GC;
    Log "Saving generated data to file...";
    Mkdir OUTPUT_FOLDER_GC;
    WriteFile (OUTPUT_FOLDER_GC +:+ "/addresses.json")
              (JSON_stringify_address address);
    WriteFile (OUTPUT_FOLDER_GC +:+ "/claims.json")
              (JSON_stringify_claims claimsWithProof);
    SplitClaimsAndSaveToFolder claimsWithProof OUTPUT_FOLDER_GC ].

(** The store once the two [rm] calls have been carried out. *)
Definition cleared (fs : gmap string string) : gmap string string :=
  Fs.remove (OUTPUT_FOLDER_GC +:+ "/params.json")
    (Fs.remove (OUTPUT_FOLDER_GC +:+ "/claims.json") fs).

(** The store once the two [writeFile] calls have been carried out on
    [shardless], the store left by [removeSplitClaimFiles]. *)
Definition direct (address : string) (claimsWithProof : list ProvenClaim)
    (shardless : gmap string string) : gmap string string :=
  <[OUTPUT_FOLDER_GC +:+ "/claims.json" :=
      JSON_stringify_claims claimsWithProof]>
    (<[OUTPUT_FOLDER_GC +:+ "/addresses.json" :=
         JSON_stringify_address address]> shardless).

(** The writer gets through: none of its seven awaited calls is rejected,
    and [final] is the store they leave. *)
Inductive Written (address : string) (claimsWithProof : list ProvenClaim)
    (fs : gmap string string) : gmap string string -> Prop :=
| written shardless final :
    fsRejects (RmCall (OUTPUT_FOLDER_GC +:+ "/claims.json")) fs = None ->
    fsRejects (RmCall (OUTPUT_FOLDER_GC +:+ "/params.json"))
              (Fs.remove (OUTPUT_FOLDER_GC +:+ "/claims.json") fs) = None ->
    removeSplitClaimFiles OUTPUT_FOLDER_GC (cleared fs) = (Ok tt, shardless) ->
    fsRejects (MkdirCall OUTPUT_FOLDER_GC) shardless = None ->
    fsRejects (WriteFileCall (OUTPUT_FOLDER_GC +:+ "/addresses.json")
                             (JSON_stringify_address address))
              shardless = None ->
    fsRejects (WriteFileCall (OUTPUT_FOLDER_GC +:+ "/claims.json")
                             (JSON_stringify_claims claimsWithProof))
              (<[OUTPUT_FOLDER_GC +:+ "/addresses.json" :=
                   JSON_stringify_address address]> shardless) = None ->
    splitClaimsAndSaveToFolder claimsWithProof OUTPUT_FOLDER_GC
      (direct address claimsWithProof shardless) = (Ok tt, final) ->
    Written address claimsWithProof fs final.

(** The runs that get as far as the writer: every collaborator answers,
    the chain is Gnosis chain, both expectations pass, the parameters
    assemble and the deployment returns [address].  The last argument is
    the world in which the writer starts. *)
Inductive Deployed (args : Args) (w : World)
  : string -> list ProvenClaim -> World -> Prop :=
| deployed signers deployer text settings parsed safe addresses
           token dao params address :
    getSigners = Ok signers ->
    head signers = Some deployer ->
    getNetwork = Ok 100%N ->
    files w !! arg_settings args = Some text ->
    JSON_parse text = Ok settings ->
    parseCsvFile (arg_claims args) (files w) = Ok parsed ->
    safeWithForwarder "100" = Ok safe ->
    generateProposal (dummySettings settings) safe safe = Ok addresses ->
    cowToken settings = Some token ->
    passes token (addr_cowToken addresses) = true ->
    cowDao settings = Some dao ->
    passes dao (addr_cowDao addresses) = true ->
    deploymentHelperParameters settings addresses
      (merkleRoot (computeProofs parsed)) "100" = Ok params ->
    deployBridgedTokenDeployer params = Ok address ->
    Deployed args w address (claims (computeProofs parsed))
      {| files := files w;
         trace := trace w
                  ++ preludeEvents args deployer settings safe
                  ++ warning "cowToken" token
                  ++ warning "cowDao" dao
                  ++ deployEvents params |}.

(** The runs that end well: they get as far as the writer, and the writer
    gets through. *)
Definition Succeeds (args : Args) (w w' : World) : Prop :=
  exists address claimsWithProof w1,
    Deployed args w address claimsWithProof w1 /\
    Written address claimsWithProof (files w) (files w') /\
    trace w' = trace w1 ++ artifactEvents address claimsWithProof.

(** What must have held for the deployment to be requested with [params]. *)
Definition Verified (args : Args) (w : World)
    (params : DeploymentHelperDeployParams) : Prop :=
  exists text s parsed safe predicted token dao,
    files w !! arg_settings args = Some text /\
    JSON_parse text = Ok s /\
    parseCsvFile (arg_claims args) (files w) = Ok parsed /\
    safeWithForwarder "100" = Ok safe /\
    generateProposal (dummySettings s) safe safe = Ok predicted /\
    cowToken s = Some token /\
    passes token (addr_cowToken predicted) = true /\
    cowDao s = Some dao /\
    passes dao (addr_cowDao predicted) = true /\
    deploymentHelperParameters s predicted
      (merkleRoot (computeProofs parsed)) "100" = Ok params.

(** What must have held for [generateProposal] to be called with [s], [a]
    and [b]. *)
Definition Proposed (args : Args) (w : World)
    (s : Settings) (a b : Members) : Prop :=
  a = b /\ safeWithForwarder "100" = Ok a /\
  exists text s0,
    files w !! arg_settings args = Some text /\
    JSON_parse text = Ok s0 /\
    s = dummySettings s0.

End Vocabulary.

(** * Properties *)

(** ** Strings *)

Lemma append_cons (c : ascii) (a b : string) :
  String c a +:+ b = String c (a +:+ b).
Proof. reflexivity. Qed.

Lemma prefix_append (a b : string) : String.prefix a (a +:+ b) = true.
Proof.
  induction a as [|c a IH]; [now destruct b|].
  rewrite append_cons. cbn [String.prefix].
  destruct (ascii_dec c c) as [_|n]; [exact IH | now destruct n].
Qed.

Lemma includes_prefix (needle hay : string) :
  String.prefix needle hay = true -> includes needle hay = true.
Proof. intros Hp. destruct hay; cbn [includes]; rewrite Hp; reflexivity. Qed.

Lemma includes_skip (needle before hay : string) :
  includes needle hay = true -> includes needle (before +:+ hay) = true.
Proof.
  intros Hi. induction before as [|c before IH]; [exact Hi|].
  rewrite append_cons. cbn [includes]. rewrite IH. apply orb_true_r.
Qed.

Lemma includes_middle (needle before after : string) :
  includes needle (before +:+ needle +:+ after) = true.
Proof. apply includes_skip, includes_prefix, prefix_append. Qed.

Lemma includes_end (needle before : string) :
  includes needle (before +:+ needle) = true.
Proof.
  apply includes_skip, includes_prefix.
  induction needle as [|c n IH]; [reflexivity|].
  cbn [String.prefix].
  destruct (ascii_dec c c) as [_|ne]; [exact IH | now destruct ne].
Qed.

(** ** Running computations *)

Lemma run_bind {A B} (m : M A) (f : A -> M B) (w : World) :
  run (m ≫= f) w =
  match run m w with
  | (Ok a, w') => run (f a) w'
  | (Throw e, w') => (Throw e, w')
  end.
Proof. reflexivity. Qed.

Lemma untouched_refl (w : World) : untouched w w.
Proof. split; [reflexivity|]. exists []. now rewrite app_nil_r. Qed.

Lemma untouched_trans (w1 w2 w3 : World) :
  untouched w1 w2 -> untouched w2 w3 -> untouched w1 w3.
Proof.
  intros [Hf1 (e1 & Ht1 & Hq1)] [Hf2 (e2 & Ht2 & Hq2)]. split.
  - congruence.
  - exists (e1 ++ e2). split.
    + rewrite Ht2, Ht1. now rewrite <- app_assoc.
    + rewrite forallb_app, Hq1, Hq2. reflexivity.
Qed.

Lemma world_eta (w : World) : {| files := files w; trace := trace w |} = w.
Proof. now destruct w. Qed.

Lemma events_unique (w w' : World) (e1 e2 : list Event) :
  trace w' = trace w ++ e1 -> trace w' = trace w ++ e2 -> e1 = e2.
Proof. intros H1 H2. rewrite H1 in H2. exact (app_inv_head _ _ _ H2). Qed.

Lemma In_take {A} (x : A) (n : nat) (l : list A) : In x (take n l) -> In x l.
Proof.
  revert n. induction l as [|y l IH]; intros [|n]; cbn; try tauto.
  intros [->|Hin]; [now left | right; exact (IH n Hin)].
Qed.

(** ** The file store *)

Lemma remove_gone (target : string) (fs : gmap string string) :
  Fs.remove target fs !! target = None.
Proof.
  unfold Fs.remove. apply map_lookup_filter_None. right. intros x _.
  unfold Fs.removed. cbn. now rewrite String.eqb_refl.
Qed.



Lemma removeSplitClaimFiles_leaves_no_shard
    (isShardPath : string -> string -> bool) (folder path : string)
    (fs : gmap string string) :
  isShardPath folder path = true ->
  Split.removeSplitClaimFiles isShardPath folder fs !! path = None.
Proof.
  intros Hshard. unfold Split.removeSplitClaimFiles.
  apply map_lookup_filter_None. right. intros x _. cbn.
  now rewrite Hshard.
Qed.

(** ** The stages of the task *)

Ltac crunch :=
  cbn -[pretty String.eqb String.append writeArtifacts
        deploymentHelperParameters verifyCowToken verifyCowDao
        safeWithForwarder dummySettings].

Section TaskProperties.
Context `{Collaborators}.

(** A [writeFile] that is carried out replaces the whole file and leaves
    the other files alone. *)
Lemma writeFile_replaces (path data : string) (w : World) :
  fsRejects (WriteFileCall path data) (files w) = None ->
  exists w',
    run (FsPromises.writeFile path data) w = (Ok tt, w') /\
    files w' !! path = Some data /\
    forall other, other <> path -> files w' !! other = files w !! other.
Proof.
  intros Hdone. eexists. split.
  - unfold FsPromises.writeFile, FsPromises.attempt. cbn.
    rewrite Hdone. reflexivity.
  - cbn. split.
    + apply lookup_insert_eq.
    + intros other Hne. now apply lookup_insert_ne.
Qed.

(** A writer that gets through. *)
Lemma writeArtifacts_complete (address : string) (proven : list ProvenClaim)
    (w : World) (final : gmap string string) :
  Written address proven (files w) final ->
  run (writeArtifacts address proven) w =
  (Ok tt, {| files := final;
             trace := trace w ++ artifactEvents address proven |}).
Proof.
  intros [shardless final' H1 H2 H3 H4 H5 H6 H7].
  unfold writeArtifacts, FsPromises.rm, FsPromises.mkdir,
    FsPromises.writeFile, FsPromises.attempt, artifactEvents.
  unfold cleared, direct in *.
  cbn -[Fs.remove String.append].
  rewrite H1. cbn -[Fs.remove String.append].
  rewrite H2. cbn -[Fs.remove String.append].
  rewrite H3. cbn -[Fs.remove String.append].
  rewrite H4. cbn -[Fs.remove String.append].
  rewrite H5. cbn -[Fs.remove String.append].
  rewrite H6. cbn -[Fs.remove String.append].
  rewrite H7. cbn -[Fs.remove String.append].
  rewrite <- !app_assoc. reflexivity.
Qed.

(** However the writer ends, what it has done is an initial part of
    [artifactEvents]; when it ends well no call was rejected. *)
Lemma writeArtifacts_outcome (address : string) (proven : list ProvenClaim)
    (w : World) (r : Result unit) (w' : World) :
  run (writeArtifacts address proven) w = (r, w') ->
  exists n,
    trace w' = trace w ++ take n (artifactEvents address proven) /\
    (r = Ok tt ->
     Written address proven (files w) (files w') /\
     trace w' = trace w ++ artifactEvents address proven).
Proof.
  unfold writeArtifacts, FsPromises.rm, FsPromises.mkdir,
    FsPromises.writeFile, FsPromises.attempt, artifactEvents.
  cbn -[Fs.remove String.append].
  destruct (fsRejects (RmCall _) (files w)) as [[e1 left1]|] eqn:H1;
    cbn -[Fs.remove String.append].
  { intros [= <- <-]. exists 2. cbn [trace take].
    rewrite <- !app_assoc. split; [reflexivity | discriminate]. }
  destruct (fsRejects (RmCall _) (Fs.remove _ _)) as [[e2 left2]|] eqn:H2;
    cbn -[Fs.remove String.append].
  { intros [= <- <-]. exists 3. cbn [trace take].
    rewrite <- !app_assoc. split; [reflexivity | discriminate]. }
  destruct (removeSplitClaimFiles _ _) as [[[]|e3] shardless] eqn:H3;
    cbn -[Fs.remove String.append].
  2:{ intros [= <- <-]. exists 4. cbn [trace take].
      rewrite <- !app_assoc. split; [reflexivity | discriminate]. }
  destruct (fsRejects (MkdirCall _) _) as [[e4 left4]|] eqn:H4;
    cbn -[Fs.remove String.append].
  { intros [= <- <-]. exists 6. cbn [trace take].
    rewrite <- !app_assoc. split; [reflexivity | discriminate]. }
  destruct (fsRejects (WriteFileCall _ (JSON_stringify_address _)) _)
    as [[e5 left5]|] eqn:H5; cbn -[Fs.remove String.append].
  { intros [= <- <-]. exists 7. cbn [trace take].
    rewrite <- !app_assoc. split; [reflexivity | discriminate]. }
  destruct (fsRejects (WriteFileCall _ (JSON_stringify_claims _)) _)
    as [[e6 left6]|] eqn:H6; cbn -[Fs.remove String.append].
  { intros [= <- <-]. exists 8. cbn [trace take].
    rewrite <- !app_assoc. split; [reflexivity | discriminate]. }
  destruct (splitClaimsAndSaveToFolder _ _ _) as [[[]|e7] final] eqn:H7;
    cbn -[Fs.remove String.append].
  2:{ intros [= <- <-]. exists 9. cbn [trace take].
      rewrite <- !app_assoc. split; [reflexivity | discriminate]. }
  intros [= <- <-]. exists 9. cbn [trace take files].
  rewrite <- !app_assoc. split; [reflexivity|]. intros _.
  split; [|reflexivity].
  exact (written address proven (files w) shardless final H1 H2 H3 H4 H5 H6 H7).
Qed.

Lemma verifyCowToken_run (s : Settings) (a : Addresses) (w : World) :
  run (verifyCowToken s a) w =
  match cowToken s with
  | None => (Throw (TypeError "expectedAddress"), w)
  | Some c =>
      if passes c (addr_cowToken a)
      then (Ok tt, {| files := files w;
                      trace := trace w ++ warning "cowToken" c |})
      else (Throw (Error ("Expected cowToken address "
                          +:+ default "" (expectedAddress c)
                          +:+ " does not coincide with calculated address "
                          +:+ addr_cowToken a)), w)
  end.
Proof.
  unfold verifyCowToken, passes, warning.
  destruct (cowToken s) as [c|]; [|reflexivity].
  cbn -[String.eqb String.append toLowerCase].
  destruct (expectedAddress c) as [e|]; [|reflexivity].
  destruct (String.eqb _ _); cbn; [|reflexivity].
  now rewrite app_nil_r, world_eta.
Qed.

Lemma verifyCowDao_run (s : Settings) (a : Addresses) (w : World) :
  run (verifyCowDao s a) w =
  match cowDao s with
  | None => (Throw (TypeError "expectedAddress"), w)
  | Some c =>
      if passes c (addr_cowDao a)
      then (Ok tt, {| files := files w;
                      trace := trace w ++ warning "cowDao" c |})
      else (Throw (Error "Expected cowDao address does not coincide with calculated address"), w)
  end.
Proof.
  unfold verifyCowDao, passes, warning.
  destruct (cowDao s) as [c|]; [|reflexivity].
  cbn -[String.eqb String.append toLowerCase].
  destruct (expectedAddress c) as [e|]; [|reflexivity].
  destruct (String.eqb _ _); cbn; [|reflexivity].
  now rewrite app_nil_r, world_eta.
Qed.

Lemma warning_harmless (name : string) (c : ContractSettings) :
  forallb (fun e => negb (mutates e)) (warning name c) = true.
Proof. unfold warning. now destruct (expectedAddress c). Qed.

Lemma chain_is_gnosis (n : N) :
  String.eqb (pretty n) "100" = true -> n = 100%N.
Proof.
  intros E. apply String.eqb_eq in E. apply (inj pretty).
  rewrite E. reflexivity.
Qed.

Lemma assembled_root (s : Settings) (a : Addresses) (root chainId : string)
    (p : DeploymentHelperDeployParams) :
  deploymentHelperParameters s a root chainId = Ok p ->
  param_merkleRoot p = root.
Proof.
  unfold deploymentHelperParameters.
  destruct (bridge s); [|discriminate].
  destruct (virtualCowToken s); [|discriminate].
  cbn. intros [= <-]. reflexivity.
Qed.

Lemma assembled_fields (s : Settings) (a : Addresses) (root chainId : string)
    (p : DeploymentHelperDeployParams) :
  deploymentHelperParameters s a root chainId = Ok p ->
  foreignToken p = addr_cowToken a /\
  communityFundsTarget p = addr_cowDao a /\
  gnoToken p = defaultTokens_gno !! chainId /\
  wrappedNativeToken p = defaultTokens_weth !! chainId /\
  param_gnoPrice p = virtualCowToken s ≫= gnoPrice /\
  param_multiTokenMediatorGnosisChain p =
    bridge s ≫= bridge_multiTokenMediatorGnosisChain.
Proof.
  unfold deploymentHelperParameters.
  destruct (bridge s); [|discriminate].
  destruct (virtualCowToken s); [|discriminate].
  cbn. intros [= <-]. repeat split.
Qed.

(** A run that has a signer, runs on Gnosis chain and gets its inputs and
    a prediction continues with the two checks. *)
Lemma generateDeployment_reaches_verifier
    (args : Args) (w : World) (signers : list string) (deployer text : string)
    (s : Settings) (parsed : list Claim) (safe : Members)
    (predicted : Addresses) :
  getSigners = Ok signers ->
  head signers = Some deployer ->
  getNetwork = Ok 100%N ->
  files w !! arg_settings args = Some text ->
  JSON_parse text = Ok s ->
  parseCsvFile (arg_claims args) (files w) = Ok parsed ->
  safeWithForwarder "100" = Ok safe ->
  generateProposal (dummySettings s) safe safe = Ok predicted ->
  run (generateDeployment args) w =
  run (verifyCowToken s predicted ;;
       verifyCowDao s predicted ;;
       params ← liftR (deploymentHelperParameters s predicted
                         (merkleRoot (computeProofs parsed)) "100");
       emit (LogParams "The following deployment parameters will be used"
                       params) ;;
       emit (GetContractFactory "BridgedTokenDeployer") ;;
       address ← await (Deploy params)
                       (fun _ => deployBridgedTokenDeployer params);
       writeArtifacts address (claims (computeProofs parsed)))
      {| files := files w;
         trace := trace w ++ preludeEvents args deployer s safe |}.
Proof.
  intros Hsig Hdep Hnet Htext Hs Hparsed Hsafe Hpred.
  unfold generateDeployment. crunch.
  rewrite Hsig, Hnet. change (pretty 100%N) with "100".
  change (String.eqb "100" "100") with true. crunch.
  rewrite Htext, Hs, Hdep. crunch. rewrite Hparsed, Hsafe, Hpred.
  unfold preludeEvents. rewrite <- !app_assoc. reflexivity.
Qed.

(** A run that gets as far as the writer ends as the writer does. *)
Lemma generateDeployment_reaches_writer (args : Args) (w w1 : World)
    (address : string) (proven : list ProvenClaim) :
  Deployed args w address proven w1 ->
  run (generateDeployment args) w = run (writeArtifacts address proven) w1.
Proof.
  intros [signers deployer text s parsed safe addrs ct cd params address'
          Hsig Hdep Hnet Htext Hs Hparsed Hsafe Haddrs Hct Hpt Hcd Hpd
          Hparams Hdeploy].
  rewrite (generateDeployment_reaches_verifier args w signers deployer text s
             parsed safe addrs) by assumption.
  rewrite run_bind, verifyCowToken_run, Hct, Hpt.
  rewrite run_bind, verifyCowDao_run, Hcd, Hpd. crunch.
  rewrite Hparams, Hdeploy. unfold deployEvents.
  rewrite <- !app_assoc. reflexivity.
Qed.

Ltac settle :=
  intros [= <- <-]; cbn [trace files];
  unfold warning, deployEvents;
  repeat match goal with
    | |- context [match expectedAddress ?c with _ => _ end] =>
        destruct (expectedAddress c)
    end;
  rewrite <- ?app_assoc; eexists; (split; [reflexivity|]);
  (split; [|split; [|left; eexists; repeat split; reflexivity]]); intros;
  repeat match goal with
    | Hin : In _ _ |- _ => progress cbn in Hin
    | Hin : _ \/ _ |- _ => destruct Hin as [Hin|Hin]
    | Hin : False |- _ => contradiction
    | Hin : @eq Event _ _ |- _ =>
        first [ discriminate Hin | injection Hin; intros; subst; clear Hin ]
    end.

(** Every run, however it ends: the calls it has made to
    [generateProposal] and to the deployment were made under the
    conditions of [Proposed] and [Verified]; and either it threw with the
    file store untouched, or it got as far as the writer and ended as the
    writer did. *)
Lemma generateDeployment_outcome (args : Args) (w : World)
    (r : Result unit) (w' : World) :
  run (generateDeployment args) w = (r, w') ->
  exists events,
    trace w' = trace w ++ events /\
    (forall s a b, In (GenerateProposal s a b) events ->
                   Proposed args w s a b) /\
    (forall params, In (Deploy params) events -> Verified args w params) /\
    ((exists e, r = Throw e /\ files w' = files w /\
                forallb (fun ev => negb (mutates ev)) events = true)
     \/
     (exists address proven w1,
         Deployed args w address proven w1 /\
         run (writeArtifacts address proven) w1 = (r, w'))).
Proof.
  unfold generateDeployment. crunch.
  destruct getSigners as [signers|?] eqn:Hsig; [|settle].
  destruct getNetwork as [network|?] eqn:Hnet; [|settle].
  destruct (String.eqb (pretty network) "100") eqn:Hchain; crunch;
    [|settle].
  apply chain_is_gnosis in Hchain. subst network.
  change (pretty 100%N) with "100".
  destruct (files w !! arg_settings args) as [text|] eqn:Htext; [|settle].
  destruct (JSON_parse text) as [s|?] eqn:Hs; [|settle].
  destruct (head signers) as [deployer|] eqn:Hdep; crunch; [|settle].
  destruct (parseCsvFile _ _) as [parsed|?] eqn:Hparsed; [|settle].
  destruct (safeWithForwarder "100") as [safe|?] eqn:Hsafe; [|settle].
  assert (HP : Proposed args w (dummySettings s) safe safe)
    by (split; [reflexivity|]; split; [exact Hsafe|]; eauto).
  destruct (generateProposal _ _ _) as [addrs|?] eqn:Haddrs;
    [|settle; exact HP].
  rewrite run_bind, verifyCowToken_run.
  destruct (cowToken s) as [ct|] eqn:Hct; [|settle; exact HP].
  destruct (passes ct _) eqn:Hpt; [|settle; exact HP].
  rewrite run_bind, verifyCowDao_run.
  destruct (cowDao s) as [cd|] eqn:Hcd; [|settle; exact HP].
  destruct (passes cd _) eqn:Hpd; [|settle; exact HP].
  crunch.
  destruct (deploymentHelperParameters _ _ _ _) as [params|?] eqn:Hparams;
    [|settle; exact HP].
  assert (HV : Verified args w params)
    by (exists text, s, parsed, safe, addrs, ct, cd; repeat split; assumption).
  destruct (deployBridgedTokenDeployer params) as [address|?] eqn:Hdeploy;
    [|settle; first [exact HP | exact HV]].
  pose proof (deployed args w signers deployer text s parsed safe addrs ct cd
                params address Hsig Hdep Hnet Htext Hs Hparsed Hsafe Haddrs
                Hct Hpt Hcd Hpd Hparams Hdeploy) as HD.
  match goal with
  | |- run _ ?w1 = _ -> _ =>
      replace w1 with
        {| files := files w;
           trace := trace w ++ preludeEvents args deployer s safe
                    ++ warning "cowToken" ct ++ warning "cowDao" cd
                    ++ deployEvents params |}
        by (unfold preludeEvents, deployEvents; rewrite <- !app_assoc;
            reflexivity)
  end.
  intros Hrun.
  destruct (writeArtifacts_outcome _ _ _ _ _ Hrun) as (n & Htrace & _).
  cbn [trace] in Htrace.
  exists (preludeEvents args deployer s safe
          ++ warning "cowToken" ct ++ warning "cowDao" cd
          ++ deployEvents params
          ++ take n (artifactEvents address (claims (computeProofs parsed)))).
  split; [rewrite Htrace, <- !app_assoc; reflexivity|].
  split; [|split; [|right; eauto]].
  - intros s0 a b Hin. rewrite !in_app_iff in Hin.
    destruct Hin as [Hin|[Hin|[Hin|[Hin|Hin]]]].
    + cbn in Hin.
      repeat (destruct Hin as [Hin|Hin]; try discriminate Hin);
        [|contradiction].
      injection Hin as <- <- <-. exact HP.
    + unfold warning in Hin. destruct (expectedAddress ct); cbn in Hin;
        intuition discriminate.
    + unfold warning in Hin. destruct (expectedAddress cd); cbn in Hin;
        intuition discriminate.
    + cbn in Hin. intuition discriminate.
    + apply In_take in Hin. cbn in Hin. intuition discriminate.
  - intros p Hin. rewrite !in_app_iff in Hin.
    destruct Hin as [Hin|[Hin|[Hin|[Hin|Hin]]]].
    + cbn in Hin. intuition discriminate.
    + unfold warning in Hin. destruct (expectedAddress ct); cbn in Hin;
        intuition discriminate.
    + unfold warning in Hin. destruct (expectedAddress cd); cbn in Hin;
        intuition discriminate.
    + cbn in Hin.
      repeat (destruct Hin as [Hin|Hin]; try discriminate Hin);
        [|contradiction].
      injection Hin as <-. exact HV.
    + apply In_take in Hin. cbn in Hin. intuition discriminate.
Qed.

(** A run that ends well met every condition of [Succeeds]. *)
Lemma generateDeployment_sound (args : Args) (w w' : World) :
  run (generateDeployment args) w = (Ok tt, w') -> Succeeds args w w'.
Proof.
  intros Hrun.
  destruct (generateDeployment_outcome args w _ _ Hrun)
    as (events & _ & _ & _ & [(e & He & _)|(address & proven & w1 & HD & Hw)]);
    [discriminate|].
  destruct (writeArtifacts_outcome _ _ _ _ _ Hw) as (n & _ & Hok).
  destruct (Hok eq_refl) as [Hwritten Htrace].
  exists address, proven, w1. split; [exact HD|]. split; [|exact Htrace].
  destruct HD. exact Hwritten.
Qed.

(** Whenever the conditions of [Succeeds] hold the run ends well. *)
Lemma generateDeployment_complete (args : Args) (w w' : World) :
  Succeeds args w w' -> run (generateDeployment args) w = (Ok tt, w').
Proof.
  intros (address & proven & w1 & HD & Hwritten & Htrace).
  rewrite (generateDeployment_reaches_writer args w w1 address proven HD).
  assert (Hfiles : files w1 = files w) by (destruct HD; reflexivity).
  rewrite <- Hfiles in Hwritten.
  rewrite (writeArtifacts_complete address proven w1 (files w') Hwritten).
  rewrite <- Htrace. now rewrite world_eta.
Qed.

End TaskProperties.
(** ** The commitment builder *)

Section MerkleProperties.
Variable leafHash : Claim -> string.
Variable hashPair : string -> string -> string.
Variable policy : Merkle.OddPolicy.
Variable emptyRoot : string.

Abbreviation pairUp := (Merkle.pairUp hashPair policy).
Abbreviation reduce := (Merkle.reduce hashPair policy).
Abbreviation stepAt := (Merkle.stepAt policy).
Abbreviation path := (Merkle.path hashPair policy).
Abbreviation recompute := (Merkle.recompute hashPair).

Lemma by_pairs (P : list string -> Prop) :
  P [] -> (forall a, P [a]) -> (forall a b rest, P rest -> P (a :: b :: rest)) ->
  forall level, P level.
Proof.
  intros Hnil Hone Hstep level.
  assert (P level /\ forall a, P (a :: level)) as [Hl _]; [|exact Hl].
  induction level as [|b rest [IH1 IH2]]; split; auto.
Qed.

Lemma pairUp_shorter (level : list string) :
  length (pairUp level) <= length level /\
  (2 <= length level -> length (pairUp level) < length level).
Proof.
  induction level as [| a | a b rest [IH _]] using by_pairs; cbn; lia.
Qed.

Lemma stepAt_skip (a b : string) (rest : list string) (i : nat) :
  stepAt (a :: b :: rest) (S (S i)) = stepAt rest i.
Proof.
  unfold Merkle.stepAt. cbn [Nat.even].
  destruct (Nat.even i) eqn:E.
  - reflexivity.
  - destruct i as [|i]; [discriminate|]. cbn. now rewrite Nat.sub_0_r.
Qed.

Lemma pairUp_climbs (level : list string) (i : nat) (x : string) :
  level !! i = Some x ->
  pairUp level !! Nat.div2 i = Some (recompute x (stepAt level i)).
Proof.
  revert i. induction level as [| a | a b rest IH] using by_pairs; intros i Hx.
  - discriminate.
  - destruct i as [|i]; [|discriminate]. injection Hx as <-.
    unfold Merkle.stepAt. cbn. now destruct policy.
  - destruct i as [|[|i]].
    + injection Hx as <-. reflexivity.
    + injection Hx as <-. reflexivity.
    + rewrite stepAt_skip. cbn [Nat.div2 Merkle.pairUp]. apply IH. exact Hx.
Qed.

Lemma path_reaches_top (fuel : nat) :
  forall (level : list string) (i : nat) (x : string),
    level !! i = Some x ->
    length level <= S fuel ->
    reduce fuel level = [recompute x (path fuel level i)].
Proof.
  induction fuel as [|fuel IH]; intros level i x Hx Hlen.
  - destruct level as [|a [|b rest]]; cbn in Hlen; try lia; [discriminate|].
    destruct i; [|discriminate]. injection Hx as <-. reflexivity.
  - destruct level as [|a [|b rest]]; [discriminate| |].
    + destruct i; [|discriminate]. injection Hx as <-. reflexivity.
    + change (reduce (S fuel) (a :: b :: rest))
        with (reduce fuel (pairUp (a :: b :: rest))).
      change (path (S fuel) (a :: b :: rest) i)
        with (stepAt (a :: b :: rest) i
              ++ path fuel (pairUp (a :: b :: rest)) (Nat.div2 i)).
      unfold Merkle.recompute. rewrite fold_left_app.
      apply IH.
      * apply pairUp_climbs. exact Hx.
      * pose proof (pairUp_shorter (a :: b :: rest)) as [_ Hlt].
        cbn [length] in *. lia.
Qed.

(** Folding the proof of any claim over its leaf hash gives the root. *)
Lemma proofs_recompute_the_root (input : list Claim) (i : nat) (c : Claim) :
  input !! i = Some c ->
  exists proven,
    claims (Merkle.computeProofs leafHash hashPair policy emptyRoot input) !! i
      = Some proven /\
    claim proven = c /\
    recompute (leafHash c) (proof proven) =
      merkleRoot (Merkle.computeProofs leafHash hashPair policy emptyRoot input).
Proof.
  intros Hc. unfold Merkle.computeProofs. cbn [claims merkleRoot].
  rewrite list_lookup_imap, Hc. cbn. eexists. split; [reflexivity|].
  split; [reflexivity|]. cbn [proof].
  unfold Merkle.root.
  rewrite (path_reaches_top _ _ i (leafHash c)).
  - reflexivity.
  - rewrite list_lookup_fmap, Hc. reflexivity.
  - lia.
Qed.

(** C5.  For a single-claim input the commitment builder returns the
    claim's leaf hash as root and the empty sequence as that claim's
    inclusion proof, whatever the rule for odd levels. *)
Theorem single_claim_root_and_proof (c : Claim) :
  Merkle.computeProofs leafHash hashPair policy emptyRoot [c] =
  {| merkleRoot := leafHash c;
     claims := [ {| claim := c; proof := [] |} ] |}.
Proof. reflexivity. Qed.

End MerkleProperties.

(** ** The claims about the task *)

Section Claims.
Context `{Collaborators}.

(** C1.  When the settings document carries an expectation for cowToken
    or cowDao that differs, up to letter case, from the predicted address,
    the run throws and the file store is what it was: nothing was written
    and nothing was cleared. *)
Theorem mismatch_aborts_before_any_file_change
    (args : Args) (w : World) (text : string) (s : Settings)
    (safe : Members) (predicted : Addresses) :
  files w !! arg_settings args = Some text ->
  JSON_parse text = Ok s ->
  safeWithForwarder "100" = Ok safe ->
  generateProposal (dummySettings s) safe safe = Ok predicted ->
  differs (cowToken s) (addr_cowToken predicted)
    || differs (cowDao s) (addr_cowDao predicted) = true ->
  exists e w',
    run (generateDeployment args) w = (Throw e, w') /\
    files w' = files w /\
    exists events,
      trace w' = trace w ++ events /\
      forallb (fun ev => negb (mutates ev)) events = true.
Proof.
  intros Htext Hs Hsafe Hpred Hdiff.
  destruct (run (generateDeployment args) w) as [r w'] eqn:Hrun.
  destruct (generateDeployment_outcome args w r w' Hrun)
    as (events & Htrace & _ & _
        & [(e & -> & Hfiles & Hquiet)|(address & proven & w1 & HD & _)]).
  - exists e, w'. split; [reflexivity|]. split; [exact Hfiles|].
    exists events. split; [exact Htrace | exact Hquiet].
  - exfalso.
    destruct HD as [signers deployer text' s' parsed safe' addrs ct cd
                    params address' _ _ _ Htext' Hs' _ Hsafe' Haddrs
                    Hct Hpt Hcd Hpd _ _].
    assert (text' = text) by congruence. subst text'.
    assert (s' = s) by congruence. subst s'.
    assert (safe' = safe) by congruence. subst safe'.
    assert (addrs = predicted) by congruence. subst addrs.
    unfold differs in Hdiff. rewrite Hct, Hcd, Hpt, Hpd in Hdiff.
    discriminate.
Qed.

(** C2.  When the provider reports a chain identifier other than 100 the
    run throws an error whose text contains the identifier found; by then
    it has asked for the signers and the network and nothing else: no
    file was read and the file store is what it was. *)
Theorem wrong_chain_aborts_before_any_file_access
    (args : Args) (w : World) (signers : list string) (network : N) :
  getSigners = Ok signers ->
  getNetwork = Ok network ->
  network <> 100%N ->
  exists text,
    run (generateDeployment args) w =
      (Throw (Error text),
       {| files := files w; trace := trace w ++ [GetSigners; GetNetwork] |})
    /\ includes (pretty network) text = true
    /\ forallb (fun ev => negb (readsFile ev || mutates ev))
               [GetSigners; GetNetwork] = true.
Proof.
  intros Hsig Hnet Hchain.
  exists ("This script must be run on gnosis chain. Found chainId "
          +:+ pretty network).
  split; [|split; [apply includes_end | reflexivity]].
  unfold generateDeployment.
  cbn -[pretty String.eqb String.append writeArtifacts
        deploymentHelperParameters verifyCowToken verifyCowDao
        safeWithForwarder dummySettings].
  rewrite Hsig, Hnet.
  destruct (String.eqb (pretty network) "100") eqn:E.
  - apply chain_is_gnosis in E. contradiction.
  - cbn -[pretty String.append]. rewrite <- app_assoc. reflexivity.
Qed.

(** C3, amended.  A run that ends well has assembled the parameters with
    the root returned by [computeProofs], has printed them and handed them
    to the deployment, and has written no parameters file: it removes
    [params.json], and the only files it writes itself are
    [addresses.json] and [claims.json].  When [computeProofs] is the
    commitment builder and the input is a single claim, the root in the
    parameters is that claim's leaf hash. *)
Theorem parameters_are_deployed_not_written
    (args : Args) (w w' : World) :
  run (generateDeployment args) w = (Ok tt, w') ->
  exists params parsed before after,
    parseCsvFile (arg_claims args) (files w) = Ok parsed /\
    param_merkleRoot params = merkleRoot (computeProofs parsed) /\
    trace w' =
      trace w ++ before
        ++ [ LogParams "The following deployment parameters will be used"
                       params;
             GetContractFactory "BridgedTokenDeployer";
             Deploy params ]
        ++ after /\
    In (Rm (OUTPUT_FOLDER_GC +:+ "/params.json")) after /\
    (forall path content,
        In (WriteFile path content) (before ++ after) ->
        path = OUTPUT_FOLDER_GC +:+ "/addresses.json" \/
        path = OUTPUT_FOLDER_GC +:+ "/claims.json") /\
    (forall leafHash hashPair policy emptyRoot c,
        computeProofs =
          Merkle.computeProofs leafHash hashPair policy emptyRoot ->
        parsed = [c] ->
        param_merkleRoot params = leafHash c).
Proof.
  intros Hrun. apply generateDeployment_sound in Hrun.
  destruct Hrun as (address0 & proven & w1 & HD & _ & Htrace).
  destruct HD as [signers deployer text s parsed safe addrs ct cd
                  params address _ _ _ _ _ Hparsed _ _ _ _ _ _
                  Hparams _].
  apply assembled_root in Hparams.
  exists params, parsed,
    (preludeEvents args deployer s safe ++ warning "cowToken" ct
       ++ warning "cowDao" cd),
    (artifactEvents address (claims (computeProofs parsed))).
  repeat split.
  - exact Hparsed.
  - exact Hparams.
  - rewrite Htrace. cbn [trace]. unfold deployEvents.
    rewrite <- !app_assoc. reflexivity.
  - cbn. auto.
  - intros path content Hin.
    rewrite !in_app_iff in Hin.
    unfold warning in Hin.
    destruct (expectedAddress ct), (expectedAddress cd);
      cbn in Hin; intuition (try discriminate);
      match goal with
      | E : WriteFile _ _ = WriteFile _ _ |- _ =>
          injection E as <- _; auto
      end.
  - intros leafHash hashPair policy emptyRoot c Hbuilder ->.
    rewrite Hparams, Hbuilder. reflexivity.
Qed.


(** C7, amended.  The assembler checks nothing.  It throws exactly when
    the object it reads a member from is missing: without
    [settings.bridge] the [TypeError] names
    [multiTokenMediatorGnosisChain], with it but without
    [settings.virtualCowToken] it names [gnoPrice].  When both objects
    are there it succeeds, and a member missing inside them is carried
    into the parameters as [undefined]. *)
Theorem assembler_fails_only_without_enclosing_object
    (s : Settings) (predicted : Addresses) (root chainId : string) :
  (bridge s = None ->
   deploymentHelperParameters s predicted root chainId =
     Throw (TypeError "multiTokenMediatorGnosisChain") /\
   includes "multiTokenMediatorGnosisChain"
            (message (TypeError "multiTokenMediatorGnosisChain")) = true) /\
  (bridge s <> None -> virtualCowToken s = None ->
   deploymentHelperParameters s predicted root chainId =
     Throw (TypeError "gnoPrice") /\
   includes "gnoPrice" (message (TypeError "gnoPrice")) = true) /\
  (forall b v,
      bridge s = Some b -> virtualCowToken s = Some v ->
      exists params,
        deploymentHelperParameters s predicted root chainId = Ok params /\
        param_multiTokenMediatorGnosisChain params =
          bridge_multiTokenMediatorGnosisChain b /\
        param_gnoPrice params = gnoPrice v).
Proof.
  unfold deploymentHelperParameters. split; [|split].
  - intros Hb. rewrite Hb. split; reflexivity.
  - intros Hb Hv. destruct (bridge s); [|contradiction].
    rewrite Hv. split; reflexivity.
  - intros b v -> ->. cbn. eexists. repeat split.
Qed.


(** C9, amended.  The settings handed to [generateProposal] depend
    neither on the [virtualCowToken] member nor on the top-level
    [multiTokenMediatorGnosisChain] member of the document: two documents
    that agree on all other members give the same input, hence the same
    predicted addresses.  The [bridge] member, with its own
    [multiTokenMediatorGnosisChain], is handed over as it is. *)
Theorem prediction_ignores_virtual_token_and_top_level_mediator
    (s1 s2 : Settings) (safeMainnet safeGnosis : Members) :
  cowToken s1 = cowToken s2 ->
  cowDao s1 = cowDao s2 ->
  bridge s1 = bridge s2 ->
  settingsMembers s1 = settingsMembers s2 ->
  dummySettings s1 = dummySettings s2 /\
  generateProposal (dummySettings s1) safeMainnet safeGnosis =
    generateProposal (dummySettings s2) safeMainnet safeGnosis /\
  virtualCowToken (dummySettings s1) =
    Some dummyVirtualTokenCreationSettings /\
  multiTokenMediatorGnosisChain (dummySettings s1) =
    Some Ethers.AddressZero /\
  bridge (dummySettings s1) = bridge s1.
Proof.
  intros Ht Hd Hb Hm.
  assert (E : dummySettings s1 = dummySettings s2)
    by (unfold dummySettings; now rewrite Ht, Hd, Hb, Hm).
  repeat split; [exact E | now rewrite E].
Qed.

(** C10.  Whatever the settings document and the claims, the
    [nativeTokenPrice] of assembled parameters is
    [parseUnits("0.15", 18)], that is 150000000000000000. *)
Theorem native_token_price_is_fixed
    (s : Settings) (predicted : Addresses) (root chainId : string)
    (params : DeploymentHelperDeployParams) :
  deploymentHelperParameters s predicted root chainId = Ok params ->
  nativeTokenPrice params = 150000000000000000%Z /\
  Ethers.parseUnits "0.15" 18 = Some 150000000000000000%Z.
Proof.
  unfold deploymentHelperParameters.
  destruct (bridge s); [|discriminate].
  destruct (virtualCowToken s); [|discriminate].
  cbn. intros [= <-]. split; reflexivity.
Qed.

End Claims.
(** ** The claims on concrete runs *)

(** The error for a cowToken mismatch names the contract and both
    addresses. *)
Lemma cowToken_mismatch_error_names_both
    (s : Settings) (a : Addresses) (w : World) (c : ContractSettings)
    (expected : string) :
  cowToken s = Some c ->
  expectedAddress c = Some expected ->
  passes c (addr_cowToken a) = false ->
  exists text,
    run (verifyCowToken s a) w = (Throw (Error text), w) /\
    includes "cowToken" text = true /\
    includes expected text = true /\
    includes (addr_cowToken a) text = true.
Proof.
  intros Hc He Hp. rewrite verifyCowToken_run, Hc, Hp, He.
  eexists. split; [reflexivity|]. cbn [default id].
  split; [|split].
  - apply (includes_middle "cowToken" "Expected ").
  - apply (includes_middle expected "Expected cowToken address ").
  - apply (includes_skip _ "Expected cowToken address ").
    apply includes_skip, includes_end.
Qed.

(** Witness of C1: cowToken expected at another address. *)
Lemma mismatch_aborts_before_any_file_change_witness :
  differs (cowToken (Demo.settings (Some Demo.otherAddress) None))
          (addr_cowToken Demo.predicted) = true /\
  exists e w',
    run (@generateDeployment
           (Demo.env (Some Demo.otherAddress) None [Demo.alice]) Demo.args)
        Demo.world = (Throw e, w') /\
    files w' = files Demo.world /\
    exists events,
      trace w' = trace Demo.world ++ events /\
      forallb (fun ev => negb (mutates ev)) events = true.
Proof.
  split; [vm_compute; reflexivity|].
  apply (@mismatch_aborts_before_any_file_change
           (Demo.env (Some Demo.otherAddress) None [Demo.alice])
           Demo.args Demo.world "{}"
           (Demo.settings (Some Demo.otherAddress) None)
           Demo.safe Demo.predicted);
    vm_compute; reflexivity.
Defined.

(** Witness of C2: a run against Ethereum mainnet. *)
Lemma wrong_chain_aborts_before_any_file_access_witness :
  exists text,
    run (@generateDeployment Demo.mainnet Demo.args) Demo.world =
      (Throw (Error text),
       {| files := files Demo.world;
          trace := trace Demo.world ++ [GetSigners; GetNetwork] |})
    /\ includes (pretty 1%N) text = true
    /\ forallb (fun ev => negb (readsFile ev || mutates ev))
               [GetSigners; GetNetwork] = true.
Proof.
  apply (@wrong_chain_aborts_before_any_file_access Demo.mainnet Demo.args
           Demo.world ["0x00000000000000000000000000000000000000d1"] 1%N).
  - reflexivity.
  - reflexivity.
  - discriminate.
Defined.

(** Counterexample to C3: a run over a single claim ends well, and
    afterwards there is no [params.json]; the stale one is gone and the
    output folder holds the address, the claims and one shard. *)
Lemma successful_run_leaves_no_parameters_file :
  exists w',
    run (@generateDeployment (Demo.env None None [Demo.alice]) Demo.args)
        Demo.world = (Ok tt, w') /\
    files Demo.world !! "./output/deployment-gc/params.json" = Some "stale" /\
    files w' !! "./output/deployment-gc/params.json" = None /\
    map fst (map_to_list (files w')) =
      [ "settings.json"; "claims.csv";
        "./output/deployment-gc/claims.json";
        "./output/deployment-gc/chunks/0.json";
        "./output/deployment-gc/addresses.json" ].
Proof.
  eexists. split; [vm_compute; reflexivity|].
  repeat split; vm_compute; reflexivity.
Qed.

(** Witness of C3, amended: the same run. *)
Lemma parameters_are_deployed_not_written_witness :
  exists w',
    run (@generateDeployment (Demo.env None None [Demo.alice]) Demo.args)
        Demo.world = (Ok tt, w') /\
    exists params parsed before after,
      @parseCsvFile (Demo.env None None [Demo.alice])
        (arg_claims Demo.args) (files Demo.world) = Ok parsed /\
      param_merkleRoot params =
        merkleRoot (@computeProofs (Demo.env None None [Demo.alice]) parsed) /\
      trace w' =
        trace Demo.world ++ before
          ++ [ LogParams "The following deployment parameters will be used"
                         params;
               GetContractFactory "BridgedTokenDeployer";
               Deploy params ]
          ++ after /\
      In (Rm (OUTPUT_FOLDER_GC +:+ "/params.json")) after /\
      (forall path content,
          In (WriteFile path content) (before ++ after) ->
          path = OUTPUT_FOLDER_GC +:+ "/addresses.json" \/
          path = OUTPUT_FOLDER_GC +:+ "/claims.json") /\
      (forall leafHash hashPair policy emptyRoot c,
          @computeProofs (Demo.env None None [Demo.alice]) =
            Merkle.computeProofs leafHash hashPair policy emptyRoot ->
          parsed = [c] ->
          param_merkleRoot params = leafHash c).
Proof.
  eexists. split; [vm_compute; reflexivity|].
  apply (@parameters_are_deployed_not_written
           (Demo.env None None [Demo.alice]) Demo.args Demo.world).
  vm_compute; reflexivity.
Defined.


(** C6 at a failing input: cowDao is expected at another address.  The run
    stops with the cowDao error, whose text names the contract and neither
    the expected nor the predicted address. *)
Lemma cowDao_mismatch_error_omits_both_addresses :
  exists text w',
    run (@generateDeployment
           (Demo.env None (Some Demo.otherAddress) [Demo.alice]) Demo.args)
        Demo.world = (Throw (Error text), w') /\
    text = "Expected cowDao address does not coincide with calculated address" /\
    includes "cowDao" text = true /\
    includes Demo.otherAddress text = false /\
    includes Demo.predictedCowDao text = false.
Proof.
  do 2 eexists. split; [vm_compute; reflexivity|].
  repeat split; vm_compute; reflexivity.
Qed.

(** Counterexample to C7: a document whose [bridge] lacks
    [multiTokenMediatorGnosisChain] and whose [virtualCowToken] lacks
    [gnoPrice] assembles without error; both members are [undefined] in the
    parameters. *)
Lemma assembler_accepts_missing_fields :
  (exists b v,
      bridge Demo.bare = Some b /\
      bridge_multiTokenMediatorGnosisChain b = None /\
      virtualCowToken Demo.bare = Some v /\
      gnoPrice v = None) /\
  exists params,
    @deploymentHelperParameters (Demo.env None None [Demo.alice])
      Demo.bare Demo.predicted "0x" "100" = Ok params /\
    param_multiTokenMediatorGnosisChain params = None /\
    param_gnoPrice params = None.
Proof.
  split.
  - do 2 eexists. repeat split.
  - eexists. split; [vm_compute; reflexivity|]. split; reflexivity.
Qed.

(** Witness of C7, amended: a document without [bridge]. *)
Lemma assembler_fails_only_without_enclosing_object_witness :
  @deploymentHelperParameters (Demo.env None None [Demo.alice])
    {| cowToken := None; cowDao := None; virtualCowToken := None;
       bridge := None; multiTokenMediatorGnosisChain := None;
       settingsMembers := ∅ |}
    Demo.predicted "0x" "100" =
  Throw (TypeError "multiTokenMediatorGnosisChain").
Proof.
  apply (@assembler_fails_only_without_enclosing_object
           (Demo.env None None [Demo.alice])).
  reflexivity.
Defined.



(** Counterexample to C9: two documents that differ only in the mediator
    inside [bridge] give [generateProposal] different inputs. *)
Lemma bridge_mediator_reaches_generateProposal :
  cowToken Demo.rebridged = cowToken (Demo.settings None None) /\
  cowDao Demo.rebridged = cowDao (Demo.settings None None) /\
  virtualCowToken Demo.rebridged = virtualCowToken (Demo.settings None None) /\
  multiTokenMediatorGnosisChain Demo.rebridged =
    multiTokenMediatorGnosisChain (Demo.settings None None) /\
  settingsMembers Demo.rebridged = settingsMembers (Demo.settings None None) /\
  bridgeMembers <$> bridge Demo.rebridged =
    bridgeMembers <$> bridge (Demo.settings None None) /\
  @dummySettings (Demo.env None None [Demo.alice]) Demo.rebridged <>
  @dummySettings (Demo.env None None [Demo.alice]) (Demo.settings None None).
Proof.
  repeat split. intros E.
  apply (f_equal bridge) in E. discriminate E.
Qed.

(** Witness of C9, amended: another virtual token and top-level mediator. *)
Lemma prediction_ignores_virtual_token_and_top_level_mediator_witness :
  virtualCowToken Demo.repriced <> virtualCowToken (Demo.settings None None) /\
  multiTokenMediatorGnosisChain Demo.repriced <>
    multiTokenMediatorGnosisChain (Demo.settings None None) /\
  @dummySettings (Demo.env None None [Demo.alice]) Demo.repriced =
  @dummySettings (Demo.env None None [Demo.alice]) (Demo.settings None None).
Proof.
  split; [discriminate|]. split; [discriminate|].
  apply (@prediction_ignores_virtual_token_and_top_level_mediator
           (Demo.env None None [Demo.alice]) Demo.repriced
           (Demo.settings None None) Demo.safe Demo.safe);
    reflexivity.
Defined.

(** Witness of C10: the parameters of the running example. *)
Lemma native_token_price_is_fixed_witness :
  exists params,
    @deploymentHelperParameters (Demo.env None None [Demo.alice])
      (Demo.settings None None) Demo.predicted "0x" "100" = Ok params /\
    nativeTokenPrice params = 150000000000000000%Z.
Proof.
  eexists. split; [vm_compute; reflexivity|].
  apply (@native_token_price_is_fixed (Demo.env None None [Demo.alice])
           (Demo.settings None None) Demo.predicted "0x" "100").
  vm_compute; reflexivity.
Defined.

(** * Further properties of the task *)

Lemma lowerChar_idempotent (c : ascii) : lowerChar (lowerChar c) = lowerChar c.
Proof. destruct c as [[] [] [] [] [] [] [] []]; reflexivity. Qed.

Lemma toLowerCase_idempotent (s : string) :
  toLowerCase (toLowerCase s) = toLowerCase s.
Proof.
  induction s as [|c s IH]; [reflexivity|].
  cbn [toLowerCase]. now rewrite lowerChar_idempotent, IH.
Qed.

Section Extras.
Context `{Collaborators}.

(** The calls a run makes to [generateProposal] and to the deployment, and
    what held when it made them. *)
Lemma generateDeployment_calls (args : Args) (w : World)
    (r : Result unit) (w' : World) :
  run (generateDeployment args) w = (r, w') ->
  exists events,
    trace w' = trace w ++ events /\
    (forall s a b, In (GenerateProposal s a b) events ->
                   Proposed args w s a b) /\
    (forall params, In (Deploy params) events -> Verified args w params).
Proof.
  intros Hrun.
  destruct (generateDeployment_outcome args w r w' Hrun)
    as (events & Htrace & Hprop & Hdep & _).
  exists events. auto.
Qed.

(** X1.  A run changes the file store only after the deployment has
    returned an address: if a file was removed or written, or a call that
    changes the disk was made, then the deployment was requested with
    parameters for which it returned an address.  So a run stopped by the
    provider, an input, the prediction, a check, the assembly or a rejected
    deployment leaves every old artifact in place. *)
Theorem file_changes_only_after_deployment
    (args : Args) (w w' : World) (r : Result unit) (events : list Event) :
  run (generateDeployment args) w = (r, w') ->
  trace w' = trace w ++ events ->
  files w' <> files w \/ existsb mutates events = true ->
  exists params address,
    In (Deploy params) events /\
    deployBridgedTokenDeployer params = Ok address.
Proof.
  intros Hrun Htrace Hchanged.
  destruct (generateDeployment_outcome args w r w' Hrun)
    as (events' & Htrace' & _ & _
        & [(e & _ & Hfiles & Hquiet)|(address & proven & w1 & HD & Hw)]).
  - exfalso. rewrite <- (events_unique w w' events events' Htrace Htrace')
      in Hquiet.
    destruct Hchanged as [Hne|Hmut]; [exact (Hne Hfiles)|].
    apply existsb_exists in Hmut. destruct Hmut as (ev & Hin & Hev).
    rewrite forallb_forall in Hquiet. specialize (Hquiet ev Hin).
    rewrite Hev in Hquiet. discriminate.
  - destruct (writeArtifacts_outcome _ _ _ _ _ Hw) as (n & Htrace1 & _).
    destruct HD as [signers deployer text s parsed safe addrs ct cd
                    params address _ _ _ _ _ _ _ _ _ _ _ _ _ Hdeploy].
    exists params, address. split; [|exact Hdeploy].
    cbn [trace] in Htrace1. rewrite <- !app_assoc in Htrace1.
    rewrite (events_unique w w' events _ Htrace Htrace1).
    rewrite !in_app_iff. do 3 right. left. cbn. auto.
Qed.

(** X2.  For settings documents whose members have their declared types, a
    run ends well exactly when the conditions of [Succeeds] hold: it has
    got as far as the writer ([Deployed]) and none of the writer's seven
    calls was rejected ([Written]); its trace and its file store are then
    the ones given there. *)
Theorem run_ends_well_exactly_when (args : Args) (w w' : World) :
  run (generateDeployment args) w = (Ok tt, w') <-> Succeeds args w w'.
Proof.
  split; [apply generateDeployment_sound | apply generateDeployment_complete].
Qed.

(** X3.  In a run that ends well, an expectation present for both
    contracts equals the predicted address up to letter case, and the run
    has printed no warning. *)
Theorem present_expectations_match_and_stay_silent
    (args : Args) (w w' : World) (text : string) (s : Settings)
    (token dao : ContractSettings) (expectedToken expectedDao : string) :
  run (generateDeployment args) w = (Ok tt, w') ->
  files w !! arg_settings args = Some text ->
  JSON_parse text = Ok s ->
  cowToken s = Some token ->
  expectedAddress token = Some expectedToken ->
  cowDao s = Some dao ->
  expectedAddress dao = Some expectedDao ->
  exists safe predicted events,
    generateProposal (dummySettings s) safe safe = Ok predicted /\
    toLowerCase expectedToken = toLowerCase (addr_cowToken predicted) /\
    toLowerCase expectedDao = toLowerCase (addr_cowDao predicted) /\
    trace w' = trace w ++ events /\
    forallb (fun ev => negb (isWarn ev)) events = true.
Proof.
  intros Hrun Htext Hs Ht Het Hd Hed.
  apply generateDeployment_sound in Hrun.
  destruct Hrun as (address0 & proven & w1 & HD & _ & Htrace).
  destruct HD as [signers deployer text' s' parsed safe addrs ct cd
                  params address _ _ _ Htext' Hs' _ _ Haddrs
                  Hct Hpt Hcd Hpd _ _].
  assert (text' = text) by congruence. subst text'.
  assert (s' = s) by congruence. subst s'.
  assert (ct = token) by congruence. subst ct.
  assert (cd = dao) by congruence. subst cd.
  unfold passes in Hpt, Hpd. rewrite Het in Hpt. rewrite Hed in Hpd.
  apply String.eqb_eq in Hpt, Hpd.
  exists safe, addrs. eexists.
  split; [exact Haddrs|]. split; [exact Hpt|]. split; [exact Hpd|].
  split; [rewrite Htrace; cbn [trace]; rewrite <- !app_assoc; reflexivity|].
  unfold warning. rewrite Het, Hed. reflexivity.
Qed.

(** X4.  Expectations written as the lower-case form of the predicted
    addresses pass both checks without a warning, whatever the letter case
    of the predicted addresses. *)
Theorem lower_case_expectations_are_accepted
    (s : Settings) (predicted : Addresses) (w : World)
    (token dao : ContractSettings) :
  cowToken s = Some token ->
  cowDao s = Some dao ->
  expectedAddress token = Some (toLowerCase (addr_cowToken predicted)) ->
  expectedAddress dao = Some (toLowerCase (addr_cowDao predicted)) ->
  run (verifyCowToken s predicted ;; verifyCowDao s predicted) w = (Ok tt, w).
Proof.
  intros Ht Hd Het Hed.
  rewrite run_bind, verifyCowToken_run, Ht.
  unfold passes, warning. rewrite Het, toLowerCase_idempotent, String.eqb_refl.
  rewrite verifyCowDao_run, Hd.
  unfold passes, warning. rewrite Hed, toLowerCase_idempotent, String.eqb_refl.
  cbn [files trace]. now rewrite !app_nil_r, world_eta.
Qed.

(** X5.  cowToken is checked first: when its expectation differs, the
    run stops right after the prediction with the cowToken error, which
    quotes the expected and the predicted address, whatever the document
    says about cowDao. *)
Theorem cowToken_is_checked_first
    (args : Args) (w : World) (signers : list string) (deployer text : string)
    (s : Settings) (parsed : list Claim) (safe : Members)
    (predicted : Addresses) (token : ContractSettings) (expected : string) :
  getSigners = Ok signers ->
  head signers = Some deployer ->
  getNetwork = Ok 100%N ->
  files w !! arg_settings args = Some text ->
  JSON_parse text = Ok s ->
  parseCsvFile (arg_claims args) (files w) = Ok parsed ->
  safeWithForwarder "100" = Ok safe ->
  generateProposal (dummySettings s) safe safe = Ok predicted ->
  cowToken s = Some token ->
  expectedAddress token = Some expected ->
  toLowerCase expected <> toLowerCase (addr_cowToken predicted) ->
  run (generateDeployment args) w =
    (Throw (Error ("Expected cowToken address " +:+ expected
                   +:+ " does not coincide with calculated address "
                   +:+ addr_cowToken predicted)),
     {| files := files w;
        trace := trace w ++ preludeEvents args deployer s safe |}).
Proof.
  intros Hsig Hdep Hnet Htext Hs Hparsed Hsafe Hpred Ht Het Hne.
  rewrite (generateDeployment_reaches_verifier args w signers deployer text s
             parsed safe predicted) by assumption.
  rewrite run_bind, verifyCowToken_run, Ht.
  unfold passes. rewrite Het.
  apply String.eqb_neq in Hne. rewrite Hne. reflexivity.
Qed.

(** X6.  A settings document without the [cowToken] object gets no
    warning: right after [generateProposal] the run throws a [TypeError]
    for reading [expectedAddress]; nothing is printed after the call and no
    file has changed. *)
Theorem missing_cowToken_object_is_a_TypeError
    (args : Args) (w : World) (signers : list string) (deployer text : string)
    (s : Settings) (parsed : list Claim) (safe : Members)
    (predicted : Addresses) :
  getSigners = Ok signers ->
  head signers = Some deployer ->
  getNetwork = Ok 100%N ->
  files w !! arg_settings args = Some text ->
  JSON_parse text = Ok s ->
  parseCsvFile (arg_claims args) (files w) = Ok parsed ->
  safeWithForwarder "100" = Ok safe ->
  generateProposal (dummySettings s) safe safe = Ok predicted ->
  cowToken s = None ->
  run (generateDeployment args) w =
    (Throw (TypeError "expectedAddress"),
     {| files := files w;
        trace := trace w
                 ++ [ GetSigners; GetNetwork; ReadFile (arg_settings args);
                      Log ("Using deployer " +:+ deployer);
                      Log "Reading user claims for gnosis chain from file...";
                      ParseCsvFile (arg_claims args);
                      Log "Generating Merkle proofs...";
                      GenerateProposal (dummySettings s) safe safe ] |}).
Proof.
  intros Hsig Hdep Hnet Htext Hs Hparsed Hsafe Hpred Hmissing.
  rewrite (generateDeployment_reaches_verifier args w signers deployer text s
             parsed safe predicted) by assumption.
  rewrite run_bind, verifyCowToken_run, Hmissing. reflexivity.
Qed.

(** X12.  A settings document whose [cowToken] passes its check and which
    has no [cowDao] object makes the run throw a [TypeError] for reading
    [expectedAddress] after the cowToken check: the cowToken warning has
    been printed if, and only if, the cowToken expectation is absent;
    nothing else is printed after [generateProposal] and no file has
    changed. *)
Theorem missing_cowDao_object_is_a_TypeError
    (args : Args) (w : World) (signers : list string) (deployer text : string)
    (s : Settings) (parsed : list Claim) (safe : Members)
    (predicted : Addresses) (token : ContractSettings) :
  getSigners = Ok signers ->
  head signers = Some deployer ->
  getNetwork = Ok 100%N ->
  files w !! arg_settings args = Some text ->
  JSON_parse text = Ok s ->
  parseCsvFile (arg_claims args) (files w) = Ok parsed ->
  safeWithForwarder "100" = Ok safe ->
  generateProposal (dummySettings s) safe safe = Ok predicted ->
  cowToken s = Some token ->
  passes token (addr_cowToken predicted) = true ->
  cowDao s = None ->
  run (generateDeployment args) w =
    (Throw (TypeError "expectedAddress"),
     {| files := files w;
        trace := trace w
                 ++ [ GetSigners; GetNetwork; ReadFile (arg_settings args);
                      Log ("Using deployer " +:+ deployer);
                      Log "Reading user claims for gnosis chain from file...";
                      ParseCsvFile (arg_claims args);
                      Log "Generating Merkle proofs...";
                      GenerateProposal (dummySettings s) safe safe ]
                 ++ match expectedAddress token with
                    | None =>
                        [ Warn "settings.cowToken.expectedAddress was not defined" ]
                    | Some _ => []
                    end |}).
Proof.
  intros Hsig Hdep Hnet Htext Hs Hparsed Hsafe Hpred Ht Hpt Hmissing.
  rewrite (generateDeployment_reaches_verifier args w signers deployer text s
             parsed safe predicted) by assumption.
  rewrite run_bind, verifyCowToken_run, Ht, Hpt.
  rewrite run_bind, verifyCowDao_run, Hmissing.
  unfold warning, preludeEvents. cbn [files trace].
  destruct (expectedAddress token); rewrite <- ?app_assoc; reflexivity.
Qed.

(** X7.  With no signer the run still reads and parses the settings
    document on Gnosis chain and then throws a [TypeError] for reading
    [address]; the claims file has not been read. *)
Theorem no_signer_fails_after_reading_settings
    (args : Args) (w : World) (text : string) (s : Settings) :
  getSigners = Ok [] ->
  getNetwork = Ok 100%N ->
  files w !! arg_settings args = Some text ->
  JSON_parse text = Ok s ->
  run (generateDeployment args) w =
    (Throw (TypeError "address"),
     {| files := files w;
        trace := trace w ++ [GetSigners; GetNetwork;
                             ReadFile (arg_settings args)] |}).
Proof.
  intros Hsig Hnet Htext Hs.
  unfold generateDeployment. crunch.
  rewrite Hsig, Hnet. change (pretty 100%N) with "100".
  change (String.eqb "100" "100") with true. crunch.
  rewrite Htext, Hs. crunch. rewrite <- !app_assoc. reflexivity.
Qed.

(** X8.  Whenever [generateProposal] is called, both of its address
    tables are the Gnosis-chain table with a zero forwarder, and the
    settings it gets carry the dummy virtual token and a zero top-level
    mediator. *)
Theorem proposal_gets_gnosis_safe_addresses_twice
    (args : Args) (w w' : World) (r : Result unit) (events : list Event)
    (s : Settings) (a b : Members) :
  run (generateDeployment args) w = (r, w') ->
  trace w' = trace w ++ events ->
  In (GenerateProposal s a b) events ->
  a = b /\
  (exists table,
      defaultSafeDeploymentAddresses "100" = Ok table /\
      a = <["forwarder" := Ethers.AddressZero]> table) /\
  virtualCowToken s = Some dummyVirtualTokenCreationSettings /\
  multiTokenMediatorGnosisChain s = Some Ethers.AddressZero.
Proof.
  intros Hrun Htrace Hin.
  destruct (generateDeployment_calls args w r w' Hrun)
    as (events' & Htrace' & Hprop & _).
  rewrite (events_unique w w' events events' Htrace Htrace') in Hin.
  destruct (Hprop s a b Hin) as (Hab & Hsafe & text & s0 & _ & _ & ->).
  split; [exact Hab|]. split; [|split; reflexivity].
  unfold safeWithForwarder in Hsafe.
  destruct (defaultSafeDeploymentAddresses "100") as [table|]; [|discriminate].
  exists table. split; [reflexivity|].
  unfold mbind, Result_bind, mret, Result_ret in Hsafe.
  injection Hsafe as <-. reflexivity.
Qed.

(** X9.  Whenever the deployment is requested, both checks have passed,
    and the parameters take the two addresses from the prediction, the root
    from [computeProofs], the token addresses from the tables at key 100,
    and the price and mediator from the settings document as it was read,
    not from the dummy settings. *)
Theorem deployment_is_requested_only_after_verification
    (args : Args) (w w' : World) (r : Result unit) (events : list Event)
    (params : DeploymentHelperDeployParams) :
  run (generateDeployment args) w = (r, w') ->
  trace w' = trace w ++ events ->
  In (Deploy params) events ->
  exists text s parsed safe predicted,
    files w !! arg_settings args = Some text /\
    JSON_parse text = Ok s /\
    parseCsvFile (arg_claims args) (files w) = Ok parsed /\
    generateProposal (dummySettings s) safe safe = Ok predicted /\
    differs (cowToken s) (addr_cowToken predicted) = false /\
    differs (cowDao s) (addr_cowDao predicted) = false /\
    foreignToken params = addr_cowToken predicted /\
    communityFundsTarget params = addr_cowDao predicted /\
    param_merkleRoot params = merkleRoot (computeProofs parsed) /\
    gnoToken params = defaultTokens_gno !! "100" /\
    wrappedNativeToken params = defaultTokens_weth !! "100" /\
    param_gnoPrice params = virtualCowToken s ≫= gnoPrice /\
    param_multiTokenMediatorGnosisChain params =
      bridge s ≫= bridge_multiTokenMediatorGnosisChain.
Proof.
  intros Hrun Htrace Hin.
  destruct (generateDeployment_calls args w r w' Hrun)
    as (events' & Htrace' & _ & Hdep).
  rewrite (events_unique w w' events events' Htrace Htrace') in Hin.
  destruct (Hdep params Hin)
    as (text & s & parsed & safe & predicted & token & dao & Htext & Hs
        & Hparsed & Hsafe & Hpred & Ht & Hpt & Hd & Hpd & Hparams).
  exists text, s, parsed, safe, predicted.
  pose proof (assembled_root _ _ _ _ _ Hparams) as Hroot.
  destruct (assembled_fields _ _ _ _ _ Hparams) as (? & ? & ? & ? & ? & ?).
  unfold differs. rewrite Ht, Hd, Hpt, Hpd.
  repeat split; assumption.
Qed.

(** X10.  When an expectation differs from the prediction the
    deployment is never requested, however the run ends. *)
Theorem mismatch_never_deploys
    (args : Args) (w w' : World) (r : Result unit) (events : list Event)
    (text : string) (s : Settings) (safe : Members) (predicted : Addresses) :
  files w !! arg_settings args = Some text ->
  JSON_parse text = Ok s ->
  safeWithForwarder "100" = Ok safe ->
  generateProposal (dummySettings s) safe safe = Ok predicted ->
  differs (cowToken s) (addr_cowToken predicted)
    || differs (cowDao s) (addr_cowDao predicted) = true ->
  run (generateDeployment args) w = (r, w') ->
  trace w' = trace w ++ events ->
  forall params, ~ In (Deploy params) events.
Proof.
  intros Htext Hs Hsafe Hpred Hdiff Hrun Htrace params Hin.
  destruct (generateDeployment_calls args w r w' Hrun)
    as (events' & Htrace' & _ & Hdep).
  rewrite (events_unique w w' events events' Htrace Htrace') in Hin.
  destruct (Hdep params Hin)
    as (text' & s' & parsed & safe' & predicted' & token & dao & Htext' & Hs'
        & _ & Hsafe' & Hpred' & Ht & Hpt & Hd & Hpd & _).
  assert (text' = text) by congruence. subst text'.
  assert (s' = s) by congruence. subst s'.
  assert (safe' = safe) by congruence. subst safe'.
  assert (predicted' = predicted) by congruence. subst predicted'.
  unfold differs in Hdiff. rewrite Ht, Hd, Hpt, Hpd in Hdiff. discriminate.
Qed.

(** X11.  Provided the shard writer, when it gets through, leaves the
    three named files alone and the shard remover, when it gets through,
    does not create [params.json]: after a run that ends well
    [addresses.json] holds the address returned by the deployment,
    [claims.json] holds the claims with their proofs, and there is no
    [params.json]. *)
Theorem artifacts_hold_the_new_content (args : Args) (w w' : World) :
  run (generateDeployment args) w = (Ok tt, w') ->
  (forall items fs fs' path,
      path = OUTPUT_FOLDER_GC +:+ "/addresses.json" \/
      path = OUTPUT_FOLDER_GC +:+ "/claims.json" \/
      path = OUTPUT_FOLDER_GC +:+ "/params.json" ->
      splitClaimsAndSaveToFolder items OUTPUT_FOLDER_GC fs = (Ok tt, fs') ->
      fs' !! path = fs !! path) ->
  (forall fs fs',
      fs !! (OUTPUT_FOLDER_GC +:+ "/params.json") = None ->
      removeSplitClaimFiles OUTPUT_FOLDER_GC fs = (Ok tt, fs') ->
      fs' !! (OUTPUT_FOLDER_GC +:+ "/params.json") = None) ->
  exists params address parsed,
    In (Deploy params) (trace w') /\
    deployBridgedTokenDeployer params = Ok address /\
    parseCsvFile (arg_claims args) (files w) = Ok parsed /\
    files w' !! (OUTPUT_FOLDER_GC +:+ "/addresses.json")
      = Some (JSON_stringify_address address) /\
    files w' !! (OUTPUT_FOLDER_GC +:+ "/claims.json")
      = Some (JSON_stringify_claims (claims (computeProofs parsed))) /\
    files w' !! (OUTPUT_FOLDER_GC +:+ "/params.json") = None.
Proof.
  intros Hrun Hsplit Hremove. apply generateDeployment_sound in Hrun.
  destruct Hrun as (address0 & proven & w1 & HD & Hwritten & Htrace).
  destruct HD as [signers deployer text s parsed safe addrs ct cd
                  params address _ _ _ _ _ Hparsed _ _ _ _ _ _ _ Hdeploy].
  destruct Hwritten as [shardless final _ _ Hshard _ _ _ Hsave].
  exists params, address, parsed.
  split; [|split; [exact Hdeploy|split; [exact Hparsed|]]].
  - rewrite Htrace. cbn [trace]. rewrite !in_app_iff.
    left. do 4 right. cbn. auto.
  - assert (Hkeep : forall path,
               path = OUTPUT_FOLDER_GC +:+ "/addresses.json" \/
               path = OUTPUT_FOLDER_GC +:+ "/claims.json" \/
               path = OUTPUT_FOLDER_GC +:+ "/params.json" ->
               final !! path
               = direct address (claims (computeProofs parsed)) shardless
                   !! path)
      by (intros path Hpath; exact (Hsplit _ _ _ path Hpath Hsave)).
    rewrite !Hkeep by auto. unfold direct.
    split; [|split].
    + rewrite lookup_insert_ne by (vm_compute; discriminate).
      apply lookup_insert_eq.
    + apply lookup_insert_eq.
    + rewrite !lookup_insert_ne by (vm_compute; discriminate).
      apply (Hremove _ _ (remove_gone _ _) Hshard).
Qed.

(** X13.  When the first [fs.rm] is rejected, the contract has already
    been deployed: the run throws that rejection right after the call, the
    store is what the rejected call left, and neither the address nor any
    other artifact has been written. *)
Theorem rejected_cleanup_comes_after_deployment
    (args : Args) (w : World) (signers : list string) (deployer text : string)
    (s : Settings) (parsed : list Claim) (safe : Members)
    (predicted : Addresses) (token dao : ContractSettings)
    (params : DeploymentHelperDeployParams) (address : string)
    (e : Exception) (remains : gmap string string) :
  getSigners = Ok signers ->
  head signers = Some deployer ->
  getNetwork = Ok 100%N ->
  files w !! arg_settings args = Some text ->
  JSON_parse text = Ok s ->
  parseCsvFile (arg_claims args) (files w) = Ok parsed ->
  safeWithForwarder "100" = Ok safe ->
  generateProposal (dummySettings s) safe safe = Ok predicted ->
  cowToken s = Some token ->
  passes token (addr_cowToken predicted) = true ->
  cowDao s = Some dao ->
  passes dao (addr_cowDao predicted) = true ->
  deploymentHelperParameters s predicted
    (merkleRoot (computeProofs parsed)) "100" = Ok params ->
  deployBridgedTokenDeployer params = Ok address ->
  fsRejects (RmCall (OUTPUT_FOLDER_GC +:+ "/claims.json")) (files w)
    = Some (e, remains) ->
  exists before,
    run (generateDeployment args) w =
      (Throw e,
       {| files := remains;
          trace := trace w ++ before
                   ++ [ Deploy params;
                        Log "Clearing old files...";
                        Rm (OUTPUT_FOLDER_GC +:+ "/claims.json") ] |}) /\
    existsb goesOn before = true /\
    forallb (fun ev => negb (mutates ev)) before = true.
Proof.
  intros Hsig Hdep Hnet Htext Hs Hparsed Hsafe Hpred Ht Hpt Hd Hpd
         Hparams Hdeploy Hrejected.
  rewrite (generateDeployment_reaches_writer args w _ address
             (claims (computeProofs parsed))
             (deployed args w signers deployer text s parsed safe predicted
                token dao params address Hsig Hdep Hnet Htext Hs Hparsed
                Hsafe Hpred Ht Hpt Hd Hpd Hparams Hdeploy)).
  exists (preludeEvents args deployer s safe ++ warning "cowToken" token
          ++ warning "cowDao" dao
          ++ [ LogParams "The following deployment parameters will be used"
                         params;
               GetContractFactory "BridgedTokenDeployer" ]).
  split; [|split].
  - unfold writeArtifacts, FsPromises.rm, FsPromises.attempt.
    cbn -[Fs.remove String.append]. rewrite Hrejected.
    cbn -[Fs.remove String.append]. unfold deployEvents, preludeEvents.
    do 2 f_equal.
    repeat (progress (rewrite <- ?app_assoc; cbn [app])). reflexivity.
  - rewrite !existsb_app. cbn. now rewrite !orb_true_r.
  - rewrite !forallb_app, !warning_harmless. reflexivity.
Qed.

End Extras.
(** ** The further properties on concrete runs *)

Lemma saveFrom_elsewhere (shardPath : string -> nat -> string)
    (stringify : list ProvenClaim -> string) (folder path : string) :
  (forall index, shardPath folder index <> path) ->
  forall parts index fs,
    Split.saveFrom shardPath stringify folder index parts fs !! path
      = fs !! path.
Proof.
  intros Hfree parts. induction parts as [|part rest IH]; intros index fs.
  - reflexivity.
  - cbn [Split.saveFrom]. rewrite IH. apply lookup_insert_ne, Hfree.
Qed.

Lemma shards_live_elsewhere (index : nat) (path : string) :
  path = OUTPUT_FOLDER_GC +:+ "/addresses.json" \/
  path = OUTPUT_FOLDER_GC +:+ "/claims.json" \/
  path = OUTPUT_FOLDER_GC +:+ "/params.json" ->
  Demo.shardPath OUTPUT_FOLDER_GC index <> path.
Proof.
  unfold Demo.shardPath, OUTPUT_FOLDER_GC.
  intros [ -> | [ -> | -> ] ] E; cbv [String.append] in E; discriminate E.
Qed.

(** Witness of X1: the running example changes the store, and has
    deployed. *)
Lemma file_changes_only_after_deployment_witness :
  exists r w' events,
    run (@generateDeployment (Demo.env None None [Demo.alice]) Demo.args)
        Demo.world = (r, w') /\
    trace w' = trace Demo.world ++ events /\
    existsb mutates events = true /\
    exists params address,
      In (Deploy params) events /\
      @deployBridgedTokenDeployer (Demo.env None None [Demo.alice]) params
        = Ok address.
Proof.
  do 3 eexists. split; [vm_compute; reflexivity|].
  split; [vm_compute; reflexivity|].
  split; [vm_compute; reflexivity|].
  eapply (@file_changes_only_after_deployment
            (Demo.env None None [Demo.alice]) Demo.args Demo.world).
  - vm_compute; reflexivity.
  - vm_compute; reflexivity.
  - right. vm_compute; reflexivity.
Defined.

(** Witness of X3: both expectations in lower case. *)
Lemma present_expectations_match_and_stay_silent_witness :
  exists w',
    run (@generateDeployment Scenario.expecting Demo.args) Demo.world
      = (Ok tt, w') /\
    exists safe predicted events,
      @generateProposal Scenario.expecting
        (@dummySettings Scenario.expecting Scenario.lowered) safe safe
        = Ok predicted /\
      toLowerCase (toLowerCase Demo.predictedCowToken)
        = toLowerCase (addr_cowToken predicted) /\
      toLowerCase (toLowerCase Demo.predictedCowDao)
        = toLowerCase (addr_cowDao predicted) /\
      trace w' = trace Demo.world ++ events /\
      forallb (fun ev => negb (isWarn ev)) events = true.
Proof.
  eexists. split; [vm_compute; reflexivity|].
  eapply (@present_expectations_match_and_stay_silent Scenario.expecting
            Demo.args Demo.world _ "{}" Scenario.lowered);
    vm_compute; reflexivity.
Defined.

(** Witness of X4: the same document at the two checks. *)
Lemma lower_case_expectations_are_accepted_witness :
  run (verifyCowToken Scenario.lowered Demo.predicted ;;
       verifyCowDao Scenario.lowered Demo.predicted) Demo.world
    = (Ok tt, Demo.world).
Proof.
  eapply lower_case_expectations_are_accepted; reflexivity.
Defined.

(** Witness of X5: both contracts expected at another address. *)
Lemma cowToken_is_checked_first_witness :
  exists w',
    run (@generateDeployment
           (Demo.env (Some Demo.otherAddress) (Some Demo.otherAddress)
                     [Demo.alice]) Demo.args) Demo.world
      = (Throw (Error ("Expected cowToken address " +:+ Demo.otherAddress
                       +:+ " does not coincide with calculated address "
                       +:+ Demo.predictedCowToken)), w').
Proof.
  eexists.
  eapply (@cowToken_is_checked_first
            (Demo.env (Some Demo.otherAddress) (Some Demo.otherAddress)
                      [Demo.alice])
            Demo.args Demo.world _ _ "{}"
            (Demo.settings (Some Demo.otherAddress) (Some Demo.otherAddress))
            [Demo.alice] Demo.safe Demo.predicted);
    try (vm_compute; reflexivity).
  vm_compute. discriminate.
Defined.

(** Witness of X6: the document without [cowToken]. *)
Lemma missing_cowToken_object_is_a_TypeError_witness :
  exists w',
    run (@generateDeployment Scenario.withoutToken Demo.args) Demo.world
      = (Throw (TypeError "expectedAddress"), w') /\
    existsb isWarn (trace w') = false.
Proof.
  eexists. split.
  - eapply (@missing_cowToken_object_is_a_TypeError Scenario.withoutToken
              Demo.args Demo.world _ _ "{}" Scenario.tokenless
              [Demo.alice] Demo.safe Demo.predicted);
      vm_compute; reflexivity.
  - vm_compute; reflexivity.
Defined.

(** Witness of X12: the document without [cowDao], whose [cowToken] has no
    expectation. *)
Lemma missing_cowDao_object_is_a_TypeError_witness :
  exists w',
    run (@generateDeployment Scenario.withoutDao Demo.args) Demo.world
      = (Throw (TypeError "expectedAddress"), w') /\
    filter (fun ev => isWarn ev = true) (trace w')
      = [Warn "settings.cowToken.expectedAddress was not defined"].
Proof.
  eexists. split.
  - eapply (@missing_cowDao_object_is_a_TypeError Scenario.withoutDao
              Demo.args Demo.world _ _ "{}" Scenario.daoless
              [Demo.alice] Demo.safe Demo.predicted
              {| expectedAddress := None; contractMembers := ∅ |});
      vm_compute; reflexivity.
  - vm_compute; reflexivity.
Defined.

(** Witness of X7: the provider without signer. *)
Lemma no_signer_fails_after_reading_settings_witness :
  run (@generateDeployment Scenario.unsigned Demo.args) Demo.world =
    (Throw (TypeError "address"),
     {| files := files Demo.world;
        trace := trace Demo.world
                 ++ [GetSigners; GetNetwork;
                     ReadFile (arg_settings Demo.args)] |}).
Proof.
  eapply (@no_signer_fails_after_reading_settings Scenario.unsigned
            Demo.args Demo.world "{}" (Demo.settings None None));
    vm_compute; reflexivity.
Defined.

(** Witness of X8: the call made by the running example. *)
Lemma proposal_gets_gnosis_safe_addresses_twice_witness :
  exists (s : Settings) (a b : Members),
    a = b /\
    (exists table,
        @defaultSafeDeploymentAddresses (Demo.env None None [Demo.alice])
          "100" = Ok table /\
        a = <["forwarder" := Ethers.AddressZero]> table) /\
    virtualCowToken s = Some Demo.dummyVirtualToken /\
    multiTokenMediatorGnosisChain s = Some Ethers.AddressZero.
Proof.
  do 3 eexists.
  eapply (@proposal_gets_gnosis_safe_addresses_twice
            (Demo.env None None [Demo.alice]) Demo.args Demo.world).
  - vm_compute; reflexivity.
  - vm_compute; reflexivity.
  - vm_compute. do 7 right. left. reflexivity.
Defined.

(** Witness of X9: the deployment requested by the running example. *)
Lemma deployment_is_requested_only_after_verification_witness :
  exists params predicted,
    foreignToken params = addr_cowToken predicted /\
    communityFundsTarget params = addr_cowDao predicted /\
    param_gnoPrice params = Some "375000".
Proof.
  destruct (@deployment_is_requested_only_after_verification
              (Demo.env None None [Demo.alice]) Demo.args Demo.world
              (snd (run (@generateDeployment
                           (Demo.env None None [Demo.alice]) Demo.args)
                        Demo.world))
              (Ok tt)
              (trace (snd (run (@generateDeployment
                                  (Demo.env None None [Demo.alice])
                                  Demo.args) Demo.world)))
              {| foreignToken := Demo.predictedCowToken;
                 param_multiTokenMediatorGnosisChain :=
                   Some "0xf6A78083ca3e2a662D6dd1703c939c8aCE2e268d";
                 param_merkleRoot := Demo.leafHash Demo.alice;
                 communityFundsTarget := Demo.predictedCowDao;
                 gnoToken := Some "0x9c58bacc331c9aa871afd802db6379a98e80cedb";
                 param_gnoPrice := Some "375000";
                 nativeTokenPrice := 150000000000000000;
                 wrappedNativeToken :=
                   Some "0xe91d153e0b41518a2ce8dd3d7944fa863463a97d" |})
    as (text & s & parsed & safe & predicted & _ & _ & _ & _ & _ & _
        & Htoken & Hdao & _ & _ & _ & Hprice & _).
  - vm_compute; reflexivity.
  - vm_compute; reflexivity.
  - vm_compute. do 12 right. left. reflexivity.
  - eexists. exists predicted.
    split; [exact Htoken|]. split; [exact Hdao|]. reflexivity.
Defined.

(** Witness of X10: cowToken expected at another address. *)
Lemma mismatch_never_deploys_witness :
  exists r w' events,
    run (@generateDeployment
           (Demo.env (Some Demo.otherAddress) None [Demo.alice]) Demo.args)
        Demo.world = (r, w') /\
    trace w' = trace Demo.world ++ events /\
    forall params, ~ In (Deploy params) events.
Proof.
  do 3 eexists. split; [vm_compute; reflexivity|].
  split; [vm_compute; reflexivity|].
  eapply (@mismatch_never_deploys
            (Demo.env (Some Demo.otherAddress) None [Demo.alice])
            Demo.args Demo.world _ _ _ "{}"
            (Demo.settings (Some Demo.otherAddress) None)
            Demo.safe Demo.predicted);
    vm_compute; reflexivity.
Defined.

(** Witness of X11: the running example, whose shards live in [chunks]. *)
Lemma artifacts_hold_the_new_content_witness :
  exists w',
    run (@generateDeployment (Demo.env None None [Demo.alice]) Demo.args)
        Demo.world = (Ok tt, w') /\
    files Demo.world !! (OUTPUT_FOLDER_GC +:+ "/params.json") = Some "stale" /\
    files w' !! (OUTPUT_FOLDER_GC +:+ "/params.json") = None.
Proof.
  eassert (Hrun : run (@generateDeployment (Demo.env None None [Demo.alice])
                         Demo.args) Demo.world = (Ok tt, _))
    by (vm_compute; reflexivity).
  eexists. split; [exact Hrun|].
  split; [vm_compute; reflexivity|].
  destruct (@artifacts_hold_the_new_content
              (Demo.env None None [Demo.alice]) Demo.args Demo.world _ Hrun)
    as (params & address & parsed & _ & _ & _ & _ & _ & Hgone).
  - intros items fs fs' path Hpath [= <-].
    apply (saveFrom_elsewhere Demo.shardPath Demo.showClaims).
    intros index. apply shards_live_elsewhere, Hpath.
  - intros fs fs' Hnone [= <-].
    apply map_lookup_filter_None. left. exact Hnone.
  - exact Hgone.
Defined.

(** Witness of X13: the running example on the blocked disk. *)
Lemma rejected_cleanup_comes_after_deployment_witness :
  exists before,
    run (@generateDeployment Scenario.stuck Demo.args) Demo.world =
      (Throw (Rejected "ENOTDIR: not a directory, rm"),
       {| files := files Demo.world;
          trace := trace Demo.world ++ before
                   ++ [ Deploy
                          {| foreignToken := Demo.predictedCowToken;
                             param_multiTokenMediatorGnosisChain :=
                               Some "0xf6A78083ca3e2a662D6dd1703c939c8aCE2e268d";
                             param_merkleRoot := Demo.leafHash Demo.alice;
                             communityFundsTarget := Demo.predictedCowDao;
                             gnoToken :=
                               Some "0x9c58bacc331c9aa871afd802db6379a98e80cedb";
                             param_gnoPrice := Some "375000";
                             nativeTokenPrice := 150000000000000000;
                             wrappedNativeToken :=
                               Some "0xe91d153e0b41518a2ce8dd3d7944fa863463a97d" |};
                        Log "Clearing old files...";
                        Rm (OUTPUT_FOLDER_GC +:+ "/claims.json") ] |}) /\
    existsb goesOn before = true /\
    forallb (fun ev => negb (mutates ev)) before = true.
Proof.
  eapply (@rejected_cleanup_comes_after_deployment Scenario.stuck
            Demo.args Demo.world [Scenario.deployer] Scenario.deployer "{}"
            (Demo.settings None None) [Demo.alice] Demo.safe Demo.predicted
            {| expectedAddress := None; contractMembers := ∅ |}
            {| expectedAddress := None; contractMembers := ∅ |}
            _ "0x00000000000000000000000000000000000000b7");
    vm_compute; reflexivity.
Defined.
